(** * The remote service client of [frontend/src/services/api.ts]

    A shallow embedding of the HTTP access layer: the three sub-clients
    [documentsApi], [patientsApi] and [chatApi], the requests they build and
    what they make of the answers.

    JavaScript values are an inductive type, promises are a small free monad
    over one kind of event (sending a request and awaiting the exchange), and
    the two transports of the file, the shared axios instance [api] and the
    global [fetch], are two ways of turning an exchange into a settled
    promise.  The [limit] of [getPatientContext] is a binary64 number, a
    primitive float, written out by [Number_toString] as
    [Number.prototype.toString] writes it. *)

From Stdlib Require Import Floats.PrimFloat Floats.SpecFloat Floats.FloatOps.
From Stdlib Require Import ZArith List String Ascii Bool Lia.
From Stdlib Require Import Numbers.DecimalString.
Import ListNotations.
Open Scope string_scope.
Set Warnings "-register-all".

(** ** JavaScript values *)

Module Js.

(** Plain data as it travels through this file: what [JSON.parse] yields and
    what the object literals of the source contain.  The numbers inside such
    data are the integer-valued ones; the file never computes with them.  An
    object is the ordered list of its own properties, each key once. *)
Inductive JsValue : Type :=
| JUndefined
| JNull
| JBool (b : bool)
| JNum (n : Z)
| JStr (s : string)
| JArr (items : list JsValue)
| JObj (props : list (string * JsValue)).

(** The errors a promise of this file can reject with. *)
Inductive JsError : Type :=
| Error (message : string)            (* new Error(message) *)
| TypeError (message : string)        (* property read on null/undefined, fetch network failure *)
| SyntaxError                         (* response.json() on a body that is not JSON *)
| AxiosError (status : option Z).     (* axios: network failure (None) or rejected status *)

(** ToBoolean. *)
Definition truthy (v : JsValue) : bool :=
  match v with
  | JUndefined | JNull => false
  | JBool b => b
  | JNum n => negb (n =? 0)%Z
  | JStr s => negb (s =? "")
  | JArr _ | JObj _ => true
  end.

(** [a || b]. *)
Definition or_else (a b : JsValue) : JsValue :=
  if truthy a then a else b.

Fixpoint lookup {V : Type} (key : string) (props : list (string * V)) : option V :=
  match props with
  | [] => None
  | (k, v) :: rest => if k =? key then Some v else lookup key rest
  end.

(** [v.key] for a key that no built-in prototype defines (the file reads
    [patient] and [patients] only): a TypeError on null and undefined, the own
    property of an object, undefined otherwise. *)
Definition get (v : JsValue) (key : string) : JsError + JsValue :=
  match v with
  | JUndefined => inl (TypeError "Cannot read properties of undefined")
  | JNull => inl (TypeError "Cannot read properties of null")
  | JObj props =>
      match lookup key props with
      | Some x => inr x
      | None => inr JUndefined
      end
  | _ => inr JUndefined
  end.

(** *** Numbers and their text *)

(** A JavaScript number is an IEEE 754 binary64 value: a primitive float. *)
Definition Number : Type := float.

(** The decimal notation of an integer. *)
Definition decimal (n : Z) : string :=
  NilZero.string_of_int (Z.to_int n).

(** The number of decimal digits of a positive integer. *)
Fixpoint count_digits (fuel : nat) (q : Z) : Z :=
  match fuel with
  | O => 1%Z
  | S fuel' => if (q <? 10)%Z then 1%Z else (1 + count_digits fuel' (q / 10))%Z
  end.

(** For [r < s], the least [j] with [s <= r * 10^j]. *)
Fixpoint leading_zeros (fuel : nat) (r s : Z) : Z :=
  match fuel with
  | O => 0%Z
  | S fuel' => if (s <=? r)%Z then 0%Z else (1 + leading_zeros fuel' (10 * r) s)%Z
  end.

(** A positive integer without its trailing zeros. *)
Fixpoint strip_zeros (fuel : nat) (d : Z) : Z :=
  match fuel with
  | O => d
  | S fuel' =>
      if ((d mod 10 =? 0) && negb (d =? 0))%Z then strip_zeros fuel' (d / 10) else d
  end.

Fixpoint zeros (n : nat) : string :=
  match n with
  | O => ""
  | S n' => String "0" (zeros n')
  end.

(** The search of Number::toString for the shortest decimal that reads back
    as the number.  The number is [r / s], with [10^(n0-1) <= r/s < 10^n0];
    the decimals that round to it are those from [(r - down) / s] to
    [(r + up) / s], the two ends included when [closed] (the mantissa is even:
    ties round to even).  With [k] digits the candidates are the two multiples
    of [10^(n0-k)] around the number; of two that fit, the closer one is
    taken, the even one when they are as close.  The result is the pair
    [(d, p)] for the decimal [d * 10^p]. *)
Fixpoint shortest_from (fuel : nat) (k : Z) (n0 r s up down : Z) (closed : bool)
  : Z * Z :=
  let p := (n0 - k)%Z in
  let num := (10 ^ Z.max p 0)%Z in
  let den := (10 ^ Z.max (- p) 0)%Z in
  let lo := ((r * den) / (s * num))%Z in
  let hi := (lo + 1)%Z in
  let fits (d : Z) :=
    let c := (d * num * s)%Z in
    if closed
    then (((r - down) * den <=? c) && (c <=? (r + up) * den))%Z
    else (((r - down) * den <? c) && (c <? (r + up) * den))%Z in
  let below := (r * den - lo * num * s)%Z in
  let above := (hi * num * s - r * den)%Z in
  match fuel with
  | O => (lo, p)
  | S fuel' =>
      match fits lo, fits hi with
      | true, true =>
          if (below <? above)%Z then (lo, p)
          else if (above <? below)%Z then (hi, p)
          else if Z.even lo then (lo, p) else (hi, p)
      | true, false => (lo, p)
      | false, true => (hi, p)
      | false, false => shortest_from fuel' (k + 1)%Z n0 r s up down closed
      end
  end.

(** The shortest decimal of the positive number [m * 2^e], [m] and [e] as
    binary64 has them ([m] below 2^53, [e] from -1074).  Below a power of two
    the next number is half as far as above it. *)
Definition shortest (m e : Z) : Z * Z :=
  let narrow := ((m =? 2 ^ 52) && (-1074 <? e))%Z in
  let scale := if narrow then 4%Z else 2%Z in
  let r := (m * 2 ^ Z.max e 0 * scale)%Z in
  let s := (2 ^ Z.max (- e) 0 * scale)%Z in
  let down := (2 ^ Z.max e 0)%Z in
  let up := if narrow then (2 * down)%Z else down in
  let n0 := if (s <=? r)%Z then count_digits 400 (r / s)
            else (1 - leading_zeros 400 r s)%Z in
  shortest_from 17 1 n0 r s up down (Z.even m).

(** The text of Number::toString for the digits [digits] with the decimal
    point after the [n]-th of them: plain notation when [n] is from -5 to 21,
    exponent notation otherwise. *)
Definition layout (digits : string) (n : Z) : string :=
  let k := Z.of_nat (String.length digits) in
  if ((k <=? n) && (n <=? 21))%Z then
    digits ++ zeros (Z.to_nat (n - k))
  else if ((0 <? n) && (n <=? 21))%Z then
    substring 0 (Z.to_nat n) digits ++ "."
    ++ substring (Z.to_nat n) (Z.to_nat (k - n)) digits
  else if ((-6 <? n) && (n <=? 0))%Z then
    "0." ++ zeros (Z.to_nat (- n)) ++ digits
  else
    let e := (n - 1)%Z in
    let exponent := (if (e <? 0)%Z then "e-" else "e+") ++ decimal (Z.abs e) in
    if (k =? 1)%Z then digits ++ exponent
    else substring 0 1 digits ++ "." ++ substring 1 (Z.to_nat (k - 1)) digits
         ++ exponent.

(** The text of the decimal [d * 10^p]. *)
Definition format (d p : Z) : string :=
  layout (decimal (strip_zeros 400 d)) (count_digits 400 d + p).

(** [Number.prototype.toString] with no argument (radix 10), on every
    number. *)
Definition Number_toString (x : Number) : string :=
  match Prim2SF x with
  | S754_nan => "NaN"
  | S754_zero _ => "0"
  | S754_infinity negative => (if negative then "-" else "") ++ "Infinity"
  | S754_finite negative m e =>
      let '(d, p) := shortest (Zpos m) e in
      (if negative then "-" else "") ++ format d p
  end.

Arguments Number_toString : simpl never.

(** [Array.prototype.join] on an array of strings. *)
Definition join (sep : string) (items : list string) : string :=
  String.concat sep items.

End Js.

(** ** JSON.stringify *)

Module JSON.
Import Js.

(** The document a JSON text denotes.  A request body produced by
    [JSON.stringify] is represented by this document. *)
Inductive Json : Type :=
| JsonNull
| JsonBool (b : bool)
| JsonNum (n : Z)
| JsonStr (s : string)
| JsonArr (items : list Json)
| JsonObj (members : list (string * Json)).

(** [JSON.stringify(v)]: undefined has no JSON text; a property whose value
    is undefined is left out of its object; an undefined array element is
    written null. *)
Fixpoint stringify (v : JsValue) : option Json :=
  match v with
  | JUndefined => None
  | JNull => Some JsonNull
  | JBool b => Some (JsonBool b)
  | JNum n => Some (JsonNum n)
  | JStr s => Some (JsonStr s)
  | JArr items =>
      Some (JsonArr (map (fun i => match stringify i with
                                   | Some j => j
                                   | None => JsonNull
                                   end) items))
  | JObj props =>
      Some (JsonObj
        ((fix members (ps : list (string * JsValue)) : list (string * Json) :=
            match ps with
            | [] => []
            | (k, x) :: rest =>
                match stringify x with
                | Some j => (k, j) :: members rest
                | None => members rest
                end
            end) props))
  end.

(** The member of a JSON object, [None] when the document is no object or has
    no such member. *)
Definition member (key : string) (doc : Json) : option Json :=
  match doc with
  | JsonObj members => lookup key members
  | _ => None
  end.

End JSON.

(** ** URL query strings *)

Module Url.

(** Bytes the application/x-www-form-urlencoded serializer leaves as they
    are: ASCII letters and digits and the four characters * - . _ *)
Definition unreserved (c : ascii) : bool :=
  let n := nat_of_ascii c in
  (((48 <=? n) && (n <=? 57)) || ((65 <=? n) && (n <=? 90))
   || ((97 <=? n) && (n <=? 122))
   || (n =? 42) || (n =? 45) || (n =? 46) || (n =? 95))%nat.

Definition hex_digit (n : nat) : ascii :=
  if (n <? 10)%nat then ascii_of_nat (48 + n) else ascii_of_nat (55 + n).

(** A byte as a percent sign and two upper-case hexadecimal digits. *)
Definition percent_encode (c : ascii) : string :=
  let n := nat_of_ascii c in
  String "%" (String (hex_digit (n / 16)) (String (hex_digit (n mod 16)) "")).

(** The serializer on one name or value: a space becomes a plus sign, an
    unreserved byte stays, every other byte is percent-encoded. *)
Fixpoint urlencode (s : string) : string :=
  match s with
  | "" => ""
  | String c rest =>
      (if (c =? " ")%char then "+"
       else if unreserved c then String c ""
       else percent_encode c) ++ urlencode rest
  end.

(** A [URLSearchParams] object: the ordered list of its name-value pairs. *)
Definition URLSearchParams : Type := list (string * string).

Definition new_URLSearchParams : URLSearchParams := [].

Definition append (params : URLSearchParams) (name value : string)
  : URLSearchParams :=
  (params ++ [(name, value)])%list.

(** [params.toString()], which a template literal applies to [params]. *)
Definition toString (params : URLSearchParams) : string :=
  String.concat "&"
    (map (fun '(name, value) => urlencode name ++ "=" ++ urlencode value) params).

(** [hay.includes(needle)]: [needle] starts at some position of [hay]. *)
Fixpoint contains (needle hay : string) : bool :=
  prefix needle hay
  || match hay with
     | "" => false
     | String _ rest => contains needle rest
     end.

(** Every byte of [s] passes the test [ok]. *)
Fixpoint all_bytes (ok : ascii -> bool) (s : string) : bool :=
  match s with
  | "" => true
  | String c rest => ok c && all_bytes ok rest
  end.

(** A decimal digit or the minus sign. *)
Definition decimal_byte (c : ascii) : bool :=
  let n := nat_of_ascii c in
  (((48 <=? n) && (n <=? 57)) || (n =? 45))%nat.

(** A byte of the text of a number: a digit, a sign, the point, the exponent
    mark and the letters of NaN and Infinity. *)
Definition number_byte (c : ascii) : bool :=
  decimal_byte c
  || (c =? "+")%char || (c =? ".")%char || (c =? "e")%char
  || (c =? "N")%char || (c =? "a")%char || (c =? "I")%char || (c =? "n")%char
  || (c =? "f")%char || (c =? "i")%char || (c =? "t")%char || (c =? "y")%char.

(** Any byte but the letter p. *)
Definition not_p (c : ascii) : bool := negb (c =? "p")%char.

End Url.

(** ** Requests, responses and promises *)

Module Http.
Import Js JSON.

Inductive Method : Type := GET | POST | PUT | DELETE.

(** A browser [File]: its name and its bytes. *)
Record File : Type := { file_name : string; file_content : string }.

Inductive FormValue : Type :=
| FormText (s : string)
| FormFile (f : File).

(** A [FormData] object: the ordered list of its entries. *)
Definition FormData : Type := list (string * FormValue).

Definition new_FormData : FormData := [].

Definition FormData_append (form : FormData) (name : string) (value : FormValue)
  : FormData :=
  (form ++ [(name, value)])%list.

Inductive Body : Type :=
| NoBody
| JsonText (doc : Json)        (* the string JSON.stringify returned *)
| Data (v : JsValue)           (* a value handed to axios as request data *)
| Multipart (form : FormData). (* a FormData object *)

Definition Headers : Type := list (string * string).

(** What [axios.create] was given. *)
Record AxiosInstance : Type :=
  { baseURL : string; default_headers : Headers }.

(** Who carries a request: an axios instance, with its base URL and default
    headers, or the global [fetch], which has neither. *)
Inductive Transport : Type :=
| Axios (instance : AxiosInstance)
| Fetch.

(** A request as the code hands it to its transport: [url] and [headers] are
    the ones written at the call. *)
Record Request : Type :=
  { transport : Transport;
    method : Method;
    url : string;
    headers : Headers;
    body : Body }.

(** A response body: JSON text, given by the value it parses to, or text that
    is not JSON. *)
Inductive Payload : Type :=
| JsonPayload (v : JsValue)
| TextPayload (s : string).

Record Response : Type := { status : Z; payload : Payload }.

(** What sending a request leads to. *)
Inductive Exchange : Type :=
| Reply (r : Response)
| NetworkFailure.

(** An async function body: it resolves, rejects, or sends a request and goes
    on with the exchange. *)
Inductive Async (A : Type) : Type :=
| Resolve (a : A)
| Reject (e : JsError)
| Await (r : Request) (k : Exchange -> Async A).

Arguments Resolve {A} a.
Arguments Reject {A} e.
Arguments Await {A} r k.

Fixpoint bind {A B : Type} (p : Async A) (f : A -> Async B) : Async B :=
  match p with
  | Resolve a => f a
  | Reject e => Reject e
  | Await r k => Await r (fun x => bind (k x) f)
  end.

Notation "x <- p ;; q" := (bind p (fun x => q))
  (at level 61, p at next level, right associativity).

(** A property read inside an async function: a thrown error rejects. *)
Definition read (r : JsError + JsValue) : Async JsValue :=
  match r with
  | inl e => Reject e
  | inr v => Resolve v
  end.

Inductive Settled (A : Type) : Type :=
| Fulfilled (a : A)
| Rejected (e : JsError).

Arguments Fulfilled {A} a.
Arguments Rejected {A} e.

(** Running an async function against a network that answers each request. *)
Fixpoint run {A : Type} (network : Request -> Exchange) (p : Async A) : Settled A :=
  match p with
  | Resolve a => Fulfilled a
  | Reject e => Rejected e
  | Await r k => run network (k (network r))
  end.

(** The requests sent on that run, in order. *)
Fixpoint requests {A : Type} (network : Request -> Exchange) (p : Async A)
  : list Request :=
  match p with
  | Resolve _ | Reject _ => []
  | Await r k => r :: requests network (k (network r))
  end.

(** *** fetch *)

Record RequestInit : Type :=
  { init_method : option Method;
    init_headers : Headers;
    init_body : Body }.

(** [fetch(url)] without a second argument. *)
Definition no_init : RequestInit :=
  {| init_method := None; init_headers := []; init_body := NoBody |}.

(** [fetch] resolves with the response whatever its status and rejects only
    when no response arrives. *)
Definition fetch (url : string) (init : RequestInit) : Async Response :=
  Await {| transport := Fetch;
           method := match init_method init with Some m => m | None => GET end;
           url := url;
           headers := init_headers init;
           body := init_body init |}
        (fun x => match x with
                  | Reply r => Resolve r
                  | NetworkFailure => Reject (TypeError "Failed to fetch")
                  end).

(** [response.ok]: the status is in the range 200 to 299. *)
Definition ok (r : Response) : bool :=
  ((200 <=? status r) && (status r <=? 299))%Z.

(** [response.json()]. *)
Definition json (r : Response) : Async JsValue :=
  match payload r with
  | JsonPayload v => Resolve v
  | TextPayload _ => Reject SyntaxError
  end.

(** The [body] option of a fetch call given the result of [JSON.stringify]. *)
Definition text_body (text : option Json) : Body :=
  match text with
  | Some doc => JsonText doc
  | None => NoBody
  end.

(** *** axios *)

Record AxiosResponse : Type := { data : JsValue; response_status : Z }.

(** The default [validateStatus] of axios. *)
Definition validateStatus (s : Z) : bool :=
  ((200 <=? s) && (s <? 300))%Z.

(** A request through an axios instance: it rejects when no response arrives
    or the status is not valid; [data] is the parsed body, or the body text
    when that is not JSON. *)
Definition axios_request (instance : AxiosInstance) (m : Method) (path : string)
    (payload_out : Body) (config_headers : Headers) : Async AxiosResponse :=
  Await {| transport := Axios instance;
           method := m;
           url := path;
           headers := config_headers;
           body := payload_out |}
        (fun x => match x with
                  | Reply r =>
                      if validateStatus (status r)
                      then Resolve {| data := match payload r with
                                              | JsonPayload v => v
                                              | TextPayload s => JStr s
                                              end;
                                      response_status := status r |}
                      else Reject (AxiosError (Some (status r)))
                  | NetworkFailure => Reject (AxiosError None)
                  end).

(** [instance.post(url, data, config)]. *)
Definition axios_post (instance : AxiosInstance) (path : string) (payload_out : Body)
    (config_headers : Headers) : Async AxiosResponse :=
  axios_request instance POST path payload_out config_headers.

(** [instance.get(url)]. *)
Definition axios_get (instance : AxiosInstance) (path : string)
  : Async AxiosResponse :=
  axios_request instance GET path NoBody [].

(** *** What a request says about itself *)

(** The content type the code configured for a request: the header written at
    the call, else the default of the axios instance that carries it. *)
Definition content_type (r : Request) : option string :=
  match lookup "Content-Type" (headers r) with
  | Some v => Some v
  | None =>
      match transport r with
      | Axios instance => lookup "Content-Type" (default_headers instance)
      | Fetch => None
      end
  end.

(** The header written at the call itself. *)
Definition sets_content_type (r : Request) : option string :=
  lookup "Content-Type" (headers r).

(** The base address a request is issued against: the one of its axios
    instance; a fetch call has none, its URL is resolved by the browser
    against the page. *)
Definition base_address (r : Request) : option string :=
  match transport r with
  | Axios instance => Some (baseURL instance)
  | Fetch => None
  end.

Definition is_json_body (b : Body) : bool :=
  match b with
  | JsonText _ | Data _ => true
  | NoBody | Multipart _ => false
  end.

Definition is_multipart (b : Body) : bool :=
  match b with
  | Multipart _ => true
  | _ => false
  end.

End Http.

(** ** The client *)

Import Js JSON Http.

(** [process.env]: the one setting the file reads, undefined when not set. *)
Record Env : Type := { REACT_APP_API_URL : option string }.

(** [process.env.REACT_APP_API_URL || 'http://localhost:8000']. *)
Definition API_BASE_URL (env : Env) : string :=
  match REACT_APP_API_URL env with
  | Some s => if s =? "" then "http://localhost:8000" else s
  | None => "http://localhost:8000"
  end.

(** The shared axios instance. *)
Definition api (env : Env) : AxiosInstance :=
  {| baseURL := API_BASE_URL env;
     default_headers := [("Content-Type", "application/json")] |}.

(** Modelled from the spec: the declarations of [PatientCreate] and
    [PatientUpdate] in [../types] are not among the sources; the spec gives
    them a name, a date of birth, an optional diagnosis and an optional
    prescription.  Each field holds what reading the property yields at run
    time, [JUndefined] when the property is absent. *)
Record PatientData : Type :=
  { name : JsValue;
    date_of_birth : JsValue;
    diagnosis : JsValue;
    prescription : JsValue }.

Definition PatientCreate : Type := PatientData.
Definition PatientUpdate : Type := PatientData.

Module documentsApi.

Definition uploadDocument (env : Env) (file : File) : Async JsValue :=
  let formData := new_FormData in
  let formData := FormData_append formData "file" (FormFile file) in
  response <- axios_post (api env) "/api/documents/upload" (Multipart formData)
                [("Content-Type", "multipart/form-data")] ;;
  Resolve (data response).

Definition uploadDocuments (env : Env) (files : list File) : Async JsValue :=
  let formData := new_FormData in
  let formData :=
    fold_left (fun form f => FormData_append form "files" (FormFile f)) files formData in
  response <- axios_post (api env) "/api/documents/upload-multiple" (Multipart formData)
                [("Content-Type", "multipart/form-data")] ;;
  Resolve (data response).

Definition getSupportedTypes (env : Env) : Async JsValue :=
  response <- axios_get (api env) "/api/documents/supported-types" ;;
  Resolve (data response).

End documentsApi.

Module patientsApi.

Definition createPatient (patientData : PatientCreate) : Async JsValue :=
  response <- fetch "/api/patients/"
    {| init_method := Some POST;
       init_headers := [("Content-Type", "application/json")];
       init_body := text_body (stringify (JObj
         [ ("name", name patientData);
           ("date_of_birth", date_of_birth patientData);
           ("diagnosis", or_else (diagnosis patientData) JNull);
           ("prescription", or_else (prescription patientData) JNull);
           ("confidence_score", JNull);
           ("raw_text", JNull) ])) |} ;;
  if negb (ok response) then Reject (Error "Failed to create patient") else
  result <- json response ;;
  patient <- read (get result "patient") ;;
  Resolve patient.

Definition getPatients : Async JsValue :=
  response <- fetch "/api/patients/" no_init ;;
  if negb (ok response) then Reject (Error "Failed to fetch patients") else
  result <- json response ;;
  patients <- read (get result "patients") ;;
  Resolve (or_else patients (JArr [])).

Definition getPatient (id : string) : Async JsValue :=
  response <- fetch ("/api/patients/" ++ id) no_init ;;
  if negb (ok response) then Reject (Error "Failed to fetch patient") else
  result <- json response ;;
  patient <- read (get result "patient") ;;
  Resolve patient.

Definition updatePatient (id : string) (patientData : PatientUpdate)
  : Async JsValue :=
  response <- fetch ("/api/patients/" ++ id)
    {| init_method := Some PUT;
       init_headers := [("Content-Type", "application/json")];
       init_body := text_body (stringify (JObj
         [ ("name", name patientData);
           ("date_of_birth", date_of_birth patientData);
           ("diagnosis", diagnosis patientData);
           ("prescription", prescription patientData) ])) |} ;;
  if negb (ok response) then Reject (Error "Failed to update patient") else
  result <- json response ;;
  patient <- read (get result "patient") ;;
  Resolve patient.

(** Resolves with undefined: the function returns nothing. *)
Definition deletePatient (id : string) : Async JsValue :=
  response <- fetch ("/api/patients/" ++ id)
    {| init_method := Some DELETE; init_headers := []; init_body := NoBody |} ;;
  if negb (ok response) then Reject (Error "Failed to delete patient") else
  Resolve JUndefined.

End patientsApi.

Module chatApi.

(** [message] is the [ChatMessage] object, whose declaration in [../types]
    is not among the sources; it is handed to axios as it is. *)
Definition sendMessage (env : Env) (message : JsValue) : Async JsValue :=
  response <- axios_post (api env) "/api/chat/" (Data message) [] ;;
  Resolve (data response).

Definition refreshKnowledgeBase (env : Env) : Async JsValue :=
  _ <- axios_post (api env) "/api/chat/refresh-knowledge-base" NoBody [] ;;
  Resolve JUndefined.

(** [files] is [None] when the argument is omitted. *)
Definition sendMessageWithPatientContext (sessionId query : string)
    (files : option (list File)) : Async JsValue :=
  let formData := new_FormData in
  let formData := FormData_append formData "session_id" (FormText sessionId) in
  let formData := FormData_append formData "query" (FormText query) in
  let formData := FormData_append formData "include_all_patients" (FormText "true") in
  let formData := FormData_append formData "max_patients" (FormText "10") in
  let formData :=
    match files with
    | Some fs =>
        if (0 <? List.length fs)%nat
        then fold_left (fun form file => FormData_append form "files" (FormFile file))
               fs formData
        else formData
    | None => formData
    end in
  response <- fetch "/api/patients/context/chat-query"
    {| init_method := Some POST; init_headers := []; init_body := Multipart formData |} ;;
  if negb (ok response) then Reject (Error "Failed to get chat response") else
  json response.

(** [patientIds] and [limit] are [None] when omitted; [limit] then takes its
    default, 10. *)
Definition getPatientContext (patientIds : option (list string))
    (limit : option Number) : Async JsValue :=
  let limit := match limit with Some n => n | None => 10%float end in
  let params := Url.new_URLSearchParams in
  let params :=
    match patientIds with
    | Some ids =>
        if (0 <? List.length ids)%nat
        then Url.append params "patient_ids" (join "," ids)
        else params
    | None => params
    end in
  let params := Url.append params "limit" (Number_toString limit) in
  let params := Url.append params "include_recent" "true" in
  response <- fetch ("/api/patients/context/chat?" ++ Url.toString params) no_init ;;
  if negb (ok response) then Reject (Error "Failed to get patient context") else
  json response.

Definition startChatSession : Async JsValue :=
  response <- fetch "/api/chat/start-session"
    {| init_method := Some POST; init_headers := []; init_body := NoBody |} ;;
  if negb (ok response) then Reject (Error "Failed to start chat session") else
  json response.

End chatApi.

(** ** The operations as one type *)

(** A call of the client: the operation and its arguments. *)
Inductive Call : Type :=
| UploadDocument (file : File)
| UploadDocuments (files : list File)
| GetSupportedTypes
| CreatePatient (patientData : PatientCreate)
| GetPatients
| GetPatient (id : string)
| UpdatePatient (id : string) (patientData : PatientUpdate)
| DeletePatient (id : string)
| SendMessage (message : JsValue)
| RefreshKnowledgeBase
| SendMessageWithPatientContext (sessionId query : string) (files : option (list File))
| GetPatientContext (patientIds : option (list string)) (limit : option Number)
| StartChatSession.

Definition perform (env : Env) (c : Call) : Async JsValue :=
  match c with
  | UploadDocument file => documentsApi.uploadDocument env file
  | UploadDocuments files => documentsApi.uploadDocuments env files
  | GetSupportedTypes => documentsApi.getSupportedTypes env
  | CreatePatient patientData => patientsApi.createPatient patientData
  | GetPatients => patientsApi.getPatients
  | GetPatient id => patientsApi.getPatient id
  | UpdatePatient id patientData => patientsApi.updatePatient id patientData
  | DeletePatient id => patientsApi.deletePatient id
  | SendMessage message => chatApi.sendMessage env message
  | RefreshKnowledgeBase => chatApi.refreshKnowledgeBase env
  | SendMessageWithPatientContext sessionId query files =>
      chatApi.sendMessageWithPatientContext sessionId query files
  | GetPatientContext patientIds limit => chatApi.getPatientContext patientIds limit
  | StartChatSession => chatApi.startChatSession
  end.

(** The operations written against the shared axios instance [api]; the
    others call the global [fetch]. *)
Definition through_api (c : Call) : bool :=
  match c with
  | UploadDocument _ | UploadDocuments _ | GetSupportedTypes
  | SendMessage _ | RefreshKnowledgeBase => true
  | _ => false
  end.

(** The request an async function sends first, if it sends one. *)
Definition first_request {A : Type} (p : Async A) : option Request :=
  match p with
  | Await r _ => Some r
  | _ => None
  end.

(** The network answers the first request of [p] with the response [resp]. *)
Definition answered {A : Type} (network : Request -> Exchange) (p : Async A)
    (resp : Response) : Prop :=
  exists r, first_request p = Some r /\ network r = Reply resp.

(** The JSON document an async function sends as the body of its first
    request. *)
Definition json_sent {A : Type} (p : Async A) : option Json :=
  match first_request p with
  | Some r => match body r with
              | JsonText doc => Some doc
              | _ => None
              end
  | None => None
  end.

(** The form an async function sends as the body of its first request. *)
Definition form_sent {A : Type} (p : Async A) : option FormData :=
  match first_request p with
  | Some r => match body r with
              | Multipart form => Some form
              | _ => None
              end
  | None => None
  end.

(** [formData.getAll(name)]. *)
Definition FormData_getAll (name : string) (form : FormData) : list FormValue :=
  map snd (filter (fun entry => fst entry =? name) form).

(** ** Sample data *)

Definition sample_patient : PatientCreate :=
  {| name := JStr "Ada";
     date_of_birth := JStr "1990-01-01";
     diagnosis := JStr "";
     prescription := JUndefined |}.

Definition sample_envelope : JsValue :=
  JObj [("patient", JObj [("id", JStr "p1"); ("name", JStr "Ada")])].

(** A network that answers every request with the given status and JSON
    body. *)
Definition answering (status : Z) (v : JsValue) : Request -> Exchange :=
  fun _ => Reply {| status := status; payload := JsonPayload v |}.

(** A response of the kind a backend gives for an unknown patient. *)
Definition not_found : Response :=
  {| status := 404; payload := JsonPayload (JObj [("detail", JStr "Patient not found")]) |}.

Definition sample_file : File :=
  {| file_name := "scan.pdf"; file_content := "%PDF-1.7" |}.

(** ** Notions used by the further properties *)

(** The error the transport of a call raises when no response arrives. *)
Definition transport_error (c : Call) : JsError :=
  if through_api c then AxiosError None else TypeError "Failed to fetch".

(** A network on which no request gets a response. *)
Definition unreachable : Request -> Exchange :=
  fun _ => NetworkFailure.

(** A network that answers every request with the given response. *)
Definition replying (resp : Response) : Request -> Exchange :=
  fun _ => Reply resp.

(** The bytes a serialized name or value is made of: the unreserved ones,
    the plus sign and the percent sign. *)
Definition query_safe (c : ascii) : bool :=
  Url.unreserved c || (c =? "+")%char || (c =? "%")%char.

(** Not one of the bytes that structure a URL or separate the ids. *)
Definition no_separator (c : ascii) : bool :=
  negb (c =? "&")%char && negb (c =? "=")%char && negb (c =? ",")%char
  && negb (c =? "#")%char && negb (c =? "?")%char && negb (c =? "/")%char
  && negb (c =? " ")%char.

(** The fetch-based operations that read the response body as JSON. *)
Definition reads_json (c : Call) : bool :=
  match c with
  | CreatePatient _ | GetPatients | GetPatient _ | UpdatePatient _ _
  | SendMessageWithPatientContext _ _ _ | GetPatientContext _ _
  | StartChatSession => true
  | _ => false
  end.

Definition sample_update : PatientUpdate :=
  {| name := JUndefined;
     date_of_birth := JUndefined;
     diagnosis := JStr "";
     prescription := JNull |}.

Definition server_error : Response :=
  {| status := 500; payload := TextPayload "Internal Server Error" |}.

(** * Properties *)

(** ** Proof steps shared by the operations *)

(** Case analysis along an async function body: on the exchange, the status
    test, the payload and the property read. *)
Ltac settle :=
  repeat (simpl; unfold json, read, get; simpl;
          match goal with
          | |- context [match ?x with _ => _ end] => destruct x eqn:?
          end);
  simpl.

(** The operation sends a request; on any network that answers it as the
    hypothesis in the goal says, the run is the one [finish] establishes. *)
Ltac once_answered finish :=
  eexists; split; [reflexivity|];
  let network := fresh "network" in
  let Hnet := fresh "Hnet" in
  intros network Hnet; simpl in Hnet; simpl; rewrite Hnet; simpl; finish.

(** ** Helper lemmas *)

Lemma stringify_none (v : JsValue) : stringify v = None <-> v = JUndefined.
Proof.
  destruct v; simpl; split; intro H; try reflexivity; discriminate H.
Qed.

Lemma truthy_defined (v : JsValue) : truthy v = true -> v <> JUndefined.
Proof.
  intros H ->. discriminate H.
Qed.

Lemma or_null_defined (v : JsValue) : or_else v JNull <> JUndefined.
Proof.
  unfold or_else. destruct (truthy v) eqn:E.
  - now apply truthy_defined.
  - discriminate.
Qed.

Lemma or_falsy (v w : JsValue) : truthy v = false -> or_else v w = w.
Proof.
  unfold or_else. now intros ->.
Qed.

Lemma or_truthy (v w : JsValue) : truthy v = true -> or_else v w = v.
Proof.
  unfold or_else. now intros ->.
Qed.

Lemma stringify_some (v : JsValue) :
  v <> JUndefined -> exists doc, stringify v = Some doc.
Proof.
  intro H. destruct (stringify v) as [doc|] eqn:E.
  - now exists doc.
  - apply stringify_none in E. contradiction.
Qed.

(** Every operation sends exactly one request, whatever the network answers:
    the first one. *)
Lemma one_request (env : Env) (c : Call) (network : Request -> Exchange) :
  exists r, first_request (perform env c) = Some r
            /\ requests network (perform env c) = [r].
Proof.
  destruct c; simpl;
    (eexists; split; [reflexivity|]);
    simpl; f_equal; settle; reflexivity.
Qed.

(** ** createPatient *)

(** C1: the body createPatient sends has confidence_score and raw_text null
    for every input; a call that succeeds got a 2xx response with a JSON
    envelope and returns the envelope's patient field; and every such
    response makes the call succeed with that field. *)
Theorem createPatient_returns_patient_field (patientData : PatientCreate) :
  (exists doc, json_sent (patientsApi.createPatient patientData) = Some doc
     /\ member "confidence_score" doc = Some JsonNull
     /\ member "raw_text" doc = Some JsonNull)
  /\ (forall network v,
        run network (patientsApi.createPatient patientData) = Fulfilled v ->
        exists resp envelope,
          answered network (patientsApi.createPatient patientData) resp
          /\ ok resp = true
          /\ payload resp = JsonPayload envelope
          /\ get envelope "patient" = inr v)
  /\ (forall network resp envelope v,
        answered network (patientsApi.createPatient patientData) resp ->
        ok resp = true ->
        payload resp = JsonPayload envelope ->
        get envelope "patient" = inr v ->
        run network (patientsApi.createPatient patientData) = Fulfilled v).
Proof.
  split; [|split].
  - unfold json_sent. simpl.
    destruct (stringify (name patientData)),
             (stringify (date_of_birth patientData)),
             (stringify (or_else (diagnosis patientData) JNull)),
             (stringify (or_else (prescription patientData) JNull));
      simpl; eexists; (split; [reflexivity|]); simpl; split; reflexivity.
  - intros network v H. simpl in H.
    match type of H with
    | context [network ?q] => destruct (network q) as [resp|] eqn:Hnet
    end; simpl in H; [|discriminate H].
    destruct (ok resp) eqn:Hok; simpl in H; [|discriminate H].
    unfold json in H.
    destruct (payload resp) as [envelope|] eqn:Hpay; simpl in H; [|discriminate H].
    destruct (get envelope "patient") as [e|w] eqn:Hget; simpl in H; [discriminate H|].
    injection H as ->.
    exists resp, envelope. repeat split; try assumption.
    eexists; split; [reflexivity|exact Hnet].
  - intros network resp envelope v [r [Hr Hnet]] Hok Hpay Hget.
    simpl in Hr. injection Hr as <-.
    simpl. rewrite Hnet. simpl. rewrite Hok. simpl.
    unfold json. rewrite Hpay. simpl. rewrite Hget. reflexivity.
Qed.

Lemma createPatient_returns_patient_field_witness :
  run (answering 201 sample_envelope) (patientsApi.createPatient sample_patient)
  = Fulfilled (JObj [("id", JStr "p1"); ("name", JStr "Ada")]).
Proof.
  apply (proj2 (proj2 (createPatient_returns_patient_field sample_patient))
           (answering 201 sample_envelope)
           {| status := 201; payload := JsonPayload sample_envelope |}
           sample_envelope).
  - eexists; split; reflexivity.
  - reflexivity.
  - reflexivity.
  - reflexivity.
Defined.

(** C9: a falsy diagnosis or prescription, the empty string in particular
    and not only an absent one, is sent as null. *)
Theorem createPatient_falsy_sent_as_null (patientData : PatientCreate) :
  exists doc, json_sent (patientsApi.createPatient patientData) = Some doc
    /\ (truthy (diagnosis patientData) = false ->
        member "diagnosis" doc = Some JsonNull)
    /\ (truthy (prescription patientData) = false ->
        member "prescription" doc = Some JsonNull)
    /\ (diagnosis patientData = JStr "" -> member "diagnosis" doc = Some JsonNull)
    /\ (prescription patientData = JStr "" ->
        member "prescription" doc = Some JsonNull)
    /\ (diagnosis patientData = JUndefined ->
        member "diagnosis" doc = Some JsonNull)
    /\ (prescription patientData = JUndefined ->
        member "prescription" doc = Some JsonNull).
Proof.
  assert (F : forall v, v = JStr "" \/ v = JUndefined -> truthy v = false)
    by (intros v [-> | ->]; reflexivity).
  enough (exists doc, json_sent (patientsApi.createPatient patientData) = Some doc
    /\ (truthy (diagnosis patientData) = false ->
        member "diagnosis" doc = Some JsonNull)
    /\ (truthy (prescription patientData) = false ->
        member "prescription" doc = Some JsonNull)) as [doc [Hs [Hd Hp]]].
  { exists doc. repeat split; auto. }
  unfold json_sent. simpl.
  destruct (truthy (diagnosis patientData)) eqn:Td,
           (truthy (prescription patientData)) eqn:Tp;
    try rewrite (or_falsy _ JNull Td); try rewrite (or_falsy _ JNull Tp);
    try rewrite (or_truthy _ JNull Td); try rewrite (or_truthy _ JNull Tp);
    destruct (stringify (name patientData)),
             (stringify (date_of_birth patientData));
    try (destruct (stringify (diagnosis patientData)) eqn:Sd);
    try (destruct (stringify (prescription patientData)) eqn:Sp);
    simpl; eexists; (split; [reflexivity|]); simpl;
    split; intro; try discriminate; reflexivity.
Qed.

Lemma createPatient_falsy_sent_as_null_witness :
  exists doc, json_sent (patientsApi.createPatient sample_patient) = Some doc
    /\ member "diagnosis" doc = Some JsonNull
    /\ member "prescription" doc = Some JsonNull.
Proof.
  destruct (createPatient_falsy_sent_as_null sample_patient)
    as [doc [Hs [_ [_ [Hd [_ [_ Hp]]]]]]].
  exists doc. split; [exact Hs|]. split.
  - apply Hd. reflexivity.
  - apply Hp. reflexivity.
Defined.

(** Beside C9: diagnosis and prescription are never left out of the body,
    whatever the input. *)
Lemma createPatient_optional_fields_present (patientData : PatientCreate) :
  exists doc, json_sent (patientsApi.createPatient patientData) = Some doc
    /\ member "diagnosis" doc <> None
    /\ member "prescription" doc <> None.
Proof.
  destruct (stringify_some _ (or_null_defined (diagnosis patientData))) as [d Hd].
  destruct (stringify_some _ (or_null_defined (prescription patientData))) as [p Hp].
  unfold json_sent. simpl. rewrite Hd, Hp.
  destruct (stringify (name patientData)),
           (stringify (date_of_birth patientData));
    simpl; eexists; (split; [reflexivity|]); simpl; split; discriminate.
Qed.

(** ** Rejections of the patient operations *)

(** C3: each of the five patient operations sends a request, and when the
    response to it is not a 2xx one the operation rejects with its fixed
    message, whatever the status and the body of the response are. *)
Theorem patient_operations_reject_with_fixed_message
    (resp : Response) (Hok : ok resp = false) :
  (forall patientData,
      exists r, first_request (patientsApi.createPatient patientData) = Some r
        /\ forall network, network r = Reply resp ->
             run network (patientsApi.createPatient patientData)
             = Rejected (Error "Failed to create patient"))
  /\ (exists r, first_request patientsApi.getPatients = Some r
        /\ forall network, network r = Reply resp ->
             run network patientsApi.getPatients
             = Rejected (Error "Failed to fetch patients"))
  /\ (forall id,
      exists r, first_request (patientsApi.getPatient id) = Some r
        /\ forall network, network r = Reply resp ->
             run network (patientsApi.getPatient id)
             = Rejected (Error "Failed to fetch patient"))
  /\ (forall id patientData,
      exists r, first_request (patientsApi.updatePatient id patientData) = Some r
        /\ forall network, network r = Reply resp ->
             run network (patientsApi.updatePatient id patientData)
             = Rejected (Error "Failed to update patient"))
  /\ (forall id,
      exists r, first_request (patientsApi.deletePatient id) = Some r
        /\ forall network, network r = Reply resp ->
             run network (patientsApi.deletePatient id)
             = Rejected (Error "Failed to delete patient")).
Proof.
  split; [|split; [|split; [|split]]]; intros *;
    once_answered ltac:(rewrite Hok; reflexivity).
Qed.

Lemma patient_operations_reject_with_fixed_message_witness :
  run (replying not_found) (patientsApi.createPatient sample_patient)
  = Rejected (Error "Failed to create patient")
  /\ run (replying not_found) patientsApi.getPatients
     = Rejected (Error "Failed to fetch patients")
  /\ run (replying not_found) (patientsApi.getPatient "p1")
     = Rejected (Error "Failed to fetch patient")
  /\ run (replying not_found) (patientsApi.updatePatient "p1" sample_update)
     = Rejected (Error "Failed to update patient")
  /\ run (replying not_found) (patientsApi.deletePatient "p1")
     = Rejected (Error "Failed to delete patient").
Proof.
  destruct (patient_operations_reject_with_fixed_message not_found eq_refl)
    as [Hcreate [[r2 [_ Hlist]] [Hget [Hupdate Hdelete]]]].
  destruct (Hcreate sample_patient) as [r1 [_ H1]].
  destruct (Hget "p1") as [r3 [_ H3]].
  destruct (Hupdate "p1" sample_update) as [r4 [_ H4]].
  destruct (Hdelete "p1") as [r5 [_ H5]].
  split; [apply H1; reflexivity|].
  split; [apply Hlist; reflexivity|].
  split; [apply H3; reflexivity|].
  split; [apply H4; reflexivity|apply H5; reflexivity].
Defined.

(** ** getPatients *)

(** C4: on a 2xx response whose JSON body is an object without a patients
    member, the empty object for one, getPatients returns an empty array; when
    the member is there and is an array, it returns that array. *)
Theorem getPatients_defaults_to_empty
    (network : Request -> Exchange) (resp : Response)
    (props : list (string * JsValue))
    (Hsent : answered network patientsApi.getPatients resp)
    (Hok : ok resp = true)
    (Hbody : payload resp = JsonPayload (JObj props)) :
  (lookup "patients" props = None ->
   run network patientsApi.getPatients = Fulfilled (JArr []))
  /\ (forall items, lookup "patients" props = Some (JArr items) ->
      run network patientsApi.getPatients = Fulfilled (JArr items)).
Proof.
  destruct Hsent as [r [Hr Hnet]]. simpl in Hr. injection Hr as <-.
  split.
  - intro Hno. simpl. rewrite Hnet. simpl. rewrite Hok. simpl.
    unfold json. rewrite Hbody. simpl. rewrite Hno. reflexivity.
  - intros items Hsome. simpl. rewrite Hnet. simpl. rewrite Hok. simpl.
    unfold json. rewrite Hbody. simpl. rewrite Hsome. reflexivity.
Qed.

Lemma getPatients_defaults_to_empty_witness :
  run (answering 200 (JObj [])) patientsApi.getPatients = Fulfilled (JArr []).
Proof.
  apply (proj1 (getPatients_defaults_to_empty (answering 200 (JObj []))
                  {| status := 200; payload := JsonPayload (JObj []) |} []
                  (ex_intro _ _ (conj eq_refl eq_refl)) eq_refl eq_refl)).
  reflexivity.
Defined.

(** Outside C4: a body that is JSON but no object.  Any value other than null
    has no patients property and gives the empty array as well; on null the
    property read throws and the call rejects. *)
Lemma getPatients_on_non_object (network : Request -> Exchange) (resp : Response)
    (v : JsValue) :
  answered network patientsApi.getPatients resp ->
  ok resp = true ->
  payload resp = JsonPayload v ->
  match v with
  | JObj _ => True
  | JNull | JUndefined =>
      exists e, run network patientsApi.getPatients = Rejected (TypeError e)
  | _ => run network patientsApi.getPatients = Fulfilled (JArr [])
  end.
Proof.
  intros [r [Hr Hnet]] Hok Hbody. simpl in Hr. injection Hr as <-.
  destruct v; try exact I; simpl; rewrite Hnet; simpl; rewrite Hok; simpl;
    unfold json; rewrite Hbody; simpl; try reflexivity; eexists; reflexivity.
Qed.

(** ** The base address *)

(** C2 as stated does not hold: getPatients goes through the global fetch
    and is not issued against the configured base address. *)
Lemma fetch_operations_bypass_base_address :
  ~ (forall env c r,
        first_request (perform env c) = Some r ->
        base_address r = Some (API_BASE_URL env)).
Proof.
  intro H.
  specialize (H {| REACT_APP_API_URL := Some "https://api.example.org" |}
                GetPatients _ eq_refl).
  discriminate H.
Qed.

(** C2, amended: the base address is the environment setting, or the local
    development address when the setting is absent or empty.  Every operation
    sends a request.  The five operations written against the shared axios
    instance issue it against the base address.  The eight others hand the
    global fetch a string that begins with /api/ and names no host, which the
    browser resolves against the page: their request has no base address and
    is the same whatever the setting is. *)
Theorem base_address_only_through_api (env : Env) (c : Call) :
  (REACT_APP_API_URL env = None -> API_BASE_URL env = "http://localhost:8000")
  /\ (REACT_APP_API_URL env = Some "" -> API_BASE_URL env = "http://localhost:8000")
  /\ (forall s, REACT_APP_API_URL env = Some s -> s <> "" -> API_BASE_URL env = s)
  /\ exists r,
       first_request (perform env c) = Some r
       /\ (through_api c = true ->
           transport r = Axios (api env)
           /\ base_address r = Some (API_BASE_URL env))
       /\ (through_api c = false ->
           transport r = Fetch
           /\ base_address r = None
           /\ prefix "/api/" (url r) = true
           /\ forall env', first_request (perform env' c) = Some r).
Proof.
  split; [|split; [|split]].
  - unfold API_BASE_URL. now intros ->.
  - unfold API_BASE_URL. now intros ->.
  - unfold API_BASE_URL. intros s -> Hs.
    destruct (s =? "") eqn:E; [|reflexivity].
    apply String.eqb_eq in E. contradiction.
  - destruct c; simpl; (eexists; split; [reflexivity|]);
      split; intro T; try discriminate T; repeat split.
Qed.

Lemma base_address_only_through_api_witness :
  API_BASE_URL {| REACT_APP_API_URL := None |} = "http://localhost:8000"
  /\ API_BASE_URL {| REACT_APP_API_URL := Some "" |} = "http://localhost:8000"
  /\ API_BASE_URL {| REACT_APP_API_URL := Some "https://api.example.org" |}
     = "https://api.example.org"
  /\ (exists r,
        first_request (perform {| REACT_APP_API_URL := Some "https://api.example.org" |}
                         GetSupportedTypes) = Some r
        /\ base_address r
           = Some (API_BASE_URL {| REACT_APP_API_URL := Some "https://api.example.org" |}))
  /\ (exists r,
        first_request (perform {| REACT_APP_API_URL := Some "https://api.example.org" |}
                         GetPatients) = Some r
        /\ base_address r = None).
Proof.
  destruct (base_address_only_through_api {| REACT_APP_API_URL := None |} GetPatients)
    as [Hnone _].
  destruct (base_address_only_through_api {| REACT_APP_API_URL := Some "" |} GetPatients)
    as [_ [Hempty _]].
  destruct (base_address_only_through_api
              {| REACT_APP_API_URL := Some "https://api.example.org" |} GetSupportedTypes)
    as [_ [_ [Hset [r1 [Hr1 [Hapi _]]]]]].
  destruct (base_address_only_through_api
              {| REACT_APP_API_URL := Some "https://api.example.org" |} GetPatients)
    as [_ [_ [_ [r2 [Hr2 [_ Hfetch]]]]]].
  split; [exact (Hnone eq_refl)|].
  split; [exact (Hempty eq_refl)|].
  split; [apply Hset; [reflexivity|discriminate]|].
  split.
  - exists r1. split; [exact Hr1|]. exact (proj2 (Hapi eq_refl)).
  - exists r2. split; [exact Hr2|]. exact (proj1 (proj2 (Hfetch eq_refl))).
Defined.

(** ** Content types *)

(** C5 as stated does not hold: uploadDocument sends a multipart body and
    sets a content-type header itself. *)
Lemma upload_sets_its_own_content_type :
  ~ (forall env c r,
        first_request (perform env c) = Some r ->
        (is_json_body (body r) = true -> content_type r = Some "application/json")
        /\ (is_multipart (body r) = true -> sets_content_type r = None)).
Proof.
  intro H.
  destruct (H {| REACT_APP_API_URL := None |}
              (UploadDocument {| file_name := "scan.pdf"; file_content := "%PDF" |})
              _ eq_refl) as [_ Hm].
  specialize (Hm eq_refl). discriminate Hm.
Qed.

(** C5, amended: a request with a JSON body has the JSON content type, set
    at the call or by the default headers of the shared axios instance.  A
    multipart request sent with fetch sets no content type and leaves it to
    the transport; a multipart request sent through the axios instance sets
    the header itself, to multipart/form-data without a boundary. *)
Theorem content_type_of_requests (env : Env) (c : Call) (r : Request)
    (Hr : first_request (perform env c) = Some r) :
  (is_json_body (body r) = true -> content_type r = Some "application/json")
  /\ (is_multipart (body r) = true ->
      match transport r with
      | Fetch => sets_content_type r = None /\ content_type r = None
      | Axios _ => sets_content_type r = Some "multipart/form-data"
      end).
Proof.
  destruct c; simpl in Hr; injection Hr as <-; simpl;
    split; intro H; try discriminate H; try reflexivity; split; reflexivity.
Qed.

Lemma content_type_of_requests_witness :
  content_type
    {| transport := Axios (api {| REACT_APP_API_URL := None |});
       method := POST;
       url := "/api/chat/";
       headers := [];
       body := Data (JObj [("message", JStr "hello")]) |}
  = Some "application/json".
Proof.
  apply (proj1 (content_type_of_requests {| REACT_APP_API_URL := None |}
                  (SendMessage (JObj [("message", JStr "hello")])) _ eq_refl)).
  reflexivity.
Defined.

(** ** Multipart forms *)

Lemma append_each (name : string) (files : list File) (form : FormData) :
  fold_left (fun form f => FormData_append form name (FormFile f)) files form
  = (form ++ map (fun f => (name, FormFile f)) files)%list.
Proof.
  revert form. induction files as [|f files IH]; intro form; simpl.
  - now rewrite app_nil_r.
  - rewrite IH. unfold FormData_append. now rewrite <- app_assoc.
Qed.

Lemma getAll_other (name other : string) (files : list File) :
  (other =? name) = false ->
  FormData_getAll name (map (fun f => (other, FormFile f)) files) = [].
Proof.
  intro H. unfold FormData_getAll.
  induction files as [|f files IH]; simpl; [reflexivity|].
  now rewrite H.
Qed.

Lemma getAll_app (name : string) (a b : FormData) :
  FormData_getAll name (a ++ b)%list
  = (FormData_getAll name a ++ FormData_getAll name b)%list.
Proof.
  unfold FormData_getAll. now rewrite filter_app, map_app.
Qed.

(** The form of sendMessageWithPatientContext: the four text fields, then one
    files entry per attached file. *)
Lemma patient_context_form (sessionId query : string) (files : option (list File)) :
  form_sent (chatApi.sendMessageWithPatientContext sessionId query files)
  = Some ([ ("session_id", FormText sessionId);
            ("query", FormText query);
            ("include_all_patients", FormText "true");
            ("max_patients", FormText "10") ]
          ++ map (fun f => ("files", FormFile f))
                 (match files with Some fs => fs | None => [] end))%list.
Proof.
  unfold form_sent. simpl. destruct files as [[|f fs]|]; simpl; try reflexivity.
  do 2 f_equal. rewrite append_each. reflexivity.
Qed.

(** C6: with session id s1, query hello and an empty file list the form is
    exactly session_id=s1, query=hello, include_all_patients=true and
    max_patients=10, with no file entry, sent by POST; and on every call the
    two flag fields occur once, with the values true and 10. *)
Theorem sendMessageWithPatientContext_form :
  (forall network,
      requests network (chatApi.sendMessageWithPatientContext "s1" "hello" (Some []))
      = [ {| transport := Fetch;
             method := POST;
             url := "/api/patients/context/chat-query";
             headers := [];
             body := Multipart [ ("session_id", FormText "s1");
                                 ("query", FormText "hello");
                                 ("include_all_patients", FormText "true");
                                 ("max_patients", FormText "10") ] |} ])
  /\ (forall sessionId query files,
      exists form,
        form_sent (chatApi.sendMessageWithPatientContext sessionId query files)
        = Some form
        /\ FormData_getAll "session_id" form = [FormText sessionId]
        /\ FormData_getAll "query" form = [FormText query]
        /\ FormData_getAll "include_all_patients" form = [FormText "true"]
        /\ FormData_getAll "max_patients" form = [FormText "10"]
        /\ FormData_getAll "files" form
           = map FormFile (match files with Some fs => fs | None => [] end)).
Proof.
  split.
  - intro network. simpl. f_equal. settle; reflexivity.
  - intros sessionId query files. eexists. split; [apply patient_context_form|].
    repeat split; rewrite getAll_app;
      try (rewrite getAll_other by reflexivity; reflexivity).
    simpl. unfold FormData_getAll.
    induction (match files with Some fs => fs | None => [] end) as [|f fs IH];
      simpl; [reflexivity|now rewrite IH].
Qed.

(** ** uploadDocument *)

(** C8: uploadDocument sends, by POST through the shared axios instance, a
    multipart body whose only entry is named file and holds the given file;
    on a response with a valid status it returns the parsed body. *)
Theorem uploadDocument_single_file_field (env : Env) (file : File) :
  form_sent (documentsApi.uploadDocument env file) = Some [("file", FormFile file)]
  /\ (forall network,
      exists r, requests network (documentsApi.uploadDocument env file) = [r]
                /\ method r = POST
                /\ url r = "/api/documents/upload"
                /\ body r = Multipart [("file", FormFile file)])
  /\ (forall network resp result,
      answered network (documentsApi.uploadDocument env file) resp ->
      validateStatus (status resp) = true ->
      payload resp = JsonPayload result ->
      run network (documentsApi.uploadDocument env file) = Fulfilled result).
Proof.
  split; [reflexivity|split].
  - intro network.
    exists {| transport := Axios (api env);
              method := POST;
              url := "/api/documents/upload";
              headers := [("Content-Type", "multipart/form-data")];
              body := Multipart [("file", FormFile file)] |}.
    repeat split. simpl. f_equal. settle; reflexivity.
  - intros network resp result [r [Hr Hnet]] Hs Hp.
    simpl in Hr. injection Hr as <-.
    simpl. rewrite Hnet. simpl. rewrite Hs. simpl. rewrite Hp. reflexivity.
Qed.

Lemma uploadDocument_single_file_field_witness :
  run (answering 200 (JObj [("success", JBool true)]))
      (documentsApi.uploadDocument {| REACT_APP_API_URL := None |} sample_file)
  = Fulfilled (JObj [("success", JBool true)]).
Proof.
  apply (proj2 (proj2 (uploadDocument_single_file_field
                         {| REACT_APP_API_URL := None |} sample_file))
           (answering 200 (JObj [("success", JBool true)]))
           {| status := 200; payload := JsonPayload (JObj [("success", JBool true)]) |}).
  - eexists; split; reflexivity.
  - reflexivity.
  - reflexivity.
Defined.

(** ** getPatientContext *)

Lemma all_bytes_weaken (P Q : ascii -> bool) (s : string) :
  (forall c, P c = true -> Q c = true) ->
  Url.all_bytes P s = true -> Url.all_bytes Q s = true.
Proof.
  intro PQ. induction s as [|c s IH]; simpl; [reflexivity|].
  intro H. apply andb_true_iff in H as [Hc Hs].
  now rewrite (PQ c Hc), (IH Hs).
Qed.

Lemma all_bytes_app (P : ascii -> bool) (a b : string) :
  Url.all_bytes P (a ++ b) = Url.all_bytes P a && Url.all_bytes P b.
Proof.
  induction a as [|c a IH]; simpl; [reflexivity|].
  now rewrite IH, andb_assoc.
Qed.

Lemma all_bytes_substring (P : ascii -> bool) (s : string) (from len : nat) :
  Url.all_bytes P s = true -> Url.all_bytes P (substring from len s) = true.
Proof.
  revert from len. induction s as [|c s IH]; intros from len H.
  - destruct from, len; reflexivity.
  - cbn [Url.all_bytes] in H. apply andb_true_iff in H as [Hc Hs].
    destruct from as [|from]; [destruct len as [|len]|]; cbn [substring].
    + reflexivity.
    + cbn [Url.all_bytes]. now rewrite Hc, (IH 0%nat len Hs).
    + apply IH, Hs.
Qed.

Lemma string_of_uint_decimal (d : Decimal.uint) :
  Url.all_bytes Url.decimal_byte (NilEmpty.string_of_uint d) = true.
Proof.
  induction d; simpl; try reflexivity; exact IHd.
Qed.

(** The decimal notation of an integer is made of digits and a minus sign. *)
Lemma decimal_bytes (n : Z) :
  Url.all_bytes Url.decimal_byte (decimal n) = true.
Proof.
  unfold decimal, NilZero.string_of_int.
  destruct (Z.to_int n) as [d|d]; unfold NilZero.string_of_uint.
  - destruct d; try reflexivity; apply string_of_uint_decimal.
  - change (Url.all_bytes Url.decimal_byte
              (match d with
               | Decimal.Nil => "0"
               | _ => NilEmpty.string_of_uint d
               end) = true).
    destruct d; try reflexivity; apply string_of_uint_decimal.
Qed.

Lemma decimal_byte_number (c : ascii) :
  Url.decimal_byte c = true -> Url.number_byte c = true.
Proof.
  unfold Url.number_byte. now intros ->.
Qed.

Lemma decimal_number_bytes (n : Z) :
  Url.all_bytes Url.number_byte (decimal n) = true.
Proof.
  apply (all_bytes_weaken Url.decimal_byte); [exact decimal_byte_number|].
  apply decimal_bytes.
Qed.

Lemma zeros_bytes (n : nat) : Url.all_bytes Url.number_byte (zeros n) = true.
Proof.
  induction n as [|n IH]; [reflexivity|exact IH].
Qed.

(** Whatever the digits and the place of the point, the text laid out for a
    number is made of number bytes. *)
Lemma layout_bytes (digits : string) (n : Z) :
  Url.all_bytes Url.number_byte digits = true ->
  Url.all_bytes Url.number_byte (layout digits n) = true.
Proof.
  intro H. unfold layout.
  repeat match goal with
         | |- context [if ?b then _ else _] => destruct b
         end;
    repeat rewrite all_bytes_app;
    repeat rewrite all_bytes_substring by exact H;
    repeat rewrite zeros_bytes;
    repeat rewrite decimal_number_bytes;
    rewrite ?H; reflexivity.
Qed.

(** The text of every number is made of number bytes. *)
Lemma Number_toString_bytes (x : Number) :
  Url.all_bytes Url.number_byte (Number_toString x) = true.
Proof.
  unfold Number_toString.
  destruct (Prim2SF x) as [negative|negative| |negative m e].
  - reflexivity.
  - destruct negative; reflexivity.
  - reflexivity.
  - destruct (shortest (Z.pos m) e) as [d p].
    rewrite all_bytes_app. unfold format.
    rewrite layout_bytes by apply decimal_number_bytes.
    destruct negative; reflexivity.
Qed.

Lemma number_byte_not_p (c : ascii) :
  Url.number_byte c = true -> Url.not_p c = true.
Proof.
  destruct c as [[] [] [] [] [] [] [] []]; vm_compute; intro H;
    first [reflexivity | discriminate H].
Qed.

Lemma decimal_byte_unreserved (c : ascii) :
  Url.decimal_byte c = true -> Url.unreserved c = true.
Proof.
  destruct c as [[] [] [] [] [] [] [] []]; vm_compute; intro H;
    first [reflexivity | discriminate H].
Qed.

Lemma unreserved_not_space (c : ascii) :
  Url.unreserved c = true -> (c =? " ")%char = false.
Proof.
  destruct c as [[] [] [] [] [] [] [] []]; vm_compute; intro H;
    first [reflexivity | discriminate H].
Qed.

(** The serializer leaves a string of unreserved bytes as it is. *)
Lemma urlencode_unreserved (s : string) :
  Url.all_bytes Url.unreserved s = true -> Url.urlencode s = s.
Proof.
  induction s as [|c s IH]; [reflexivity|].
  cbn [Url.all_bytes Url.urlencode]. intro H.
  apply andb_true_iff in H as [Hc Hs].
  rewrite (unreserved_not_space c Hc), Hc, (IH Hs). reflexivity.
Qed.

(** What the serializer writes for a byte other than p has no p. *)
Lemma urlencode_byte_without_p (c : ascii) :
  Url.not_p c = true ->
  Url.all_bytes Url.not_p (Url.urlencode (String c "")) = true.
Proof.
  destruct c as [[] [] [] [] [] [] [] []]; vm_compute; intro H;
    first [reflexivity | discriminate H].
Qed.

Lemma urlencode_without_p (s : string) :
  Url.all_bytes Url.not_p s = true ->
  Url.all_bytes Url.not_p (Url.urlencode s) = true.
Proof.
  induction s as [|c s IH]; [reflexivity|].
  cbn [Url.all_bytes]. intro H. apply andb_true_iff in H as [Hc Hs].
  pose proof (urlencode_byte_without_p c Hc) as Hb.
  cbn [Url.urlencode] in Hb |- *.
  rewrite all_bytes_app in Hb |- *.
  apply andb_true_iff in Hb as [Hb _].
  now rewrite Hb, (IH Hs).
Qed.

(** The serialized text of a number has no p. *)
Lemma serialized_number_without_p (x : Number) :
  Url.all_bytes Url.not_p (Url.urlencode (Number_toString x)) = true.
Proof.
  apply urlencode_without_p.
  apply (all_bytes_weaken Url.number_byte); [exact number_byte_not_p|].
  apply Number_toString_bytes.
Qed.

(** A needle does not start inside a stretch that lacks its first byte. *)
Lemma contains_skip (c0 : ascii) (needle mid rest : string) :
  Url.all_bytes (fun c => negb (c =? c0)%char) mid = true ->
  Url.contains (String c0 needle) (mid ++ rest)
  = Url.contains (String c0 needle) rest.
Proof.
  induction mid as [|c mid IH]; [reflexivity|].
  cbn [Url.all_bytes]. intro H. apply andb_true_iff in H as [Hc Hs].
  change (String c mid ++ rest) with (String c (mid ++ rest)).
  cbn [Url.contains prefix].
  destruct (ascii_dec c0 c) as [->|_].
  - rewrite Ascii.eqb_refl in Hc. discriminate Hc.
  - rewrite (IH Hs). reflexivity.
Qed.

Lemma Number_toString_5 : Number_toString 5%float = "5".
Proof. vm_compute. reflexivity. Qed.

Lemma Number_toString_10 : Number_toString 10%float = "10".
Proof. vm_compute. reflexivity. Qed.

(** C7 as stated does not hold: the comma that joins the ids is
    percent-encoded when the parameters are serialized, so the query string
    does not contain the text patient_ids=p1,p2. *)
Lemma patient_ids_comma_is_encoded :
  ~ (forall r,
        first_request (chatApi.getPatientContext (Some ["p1"; "p2"]) (Some 5%float))
        = Some r ->
        method r = GET
        /\ Url.contains "patient_ids=p1,p2" (url r) = true
        /\ Url.contains "limit=5" (url r) = true
        /\ Url.contains "include_recent=true" (url r) = true).
Proof.
  intro H. destruct (H _ eq_refl) as [_ [Hids _]].
  vm_compute in Hids. discriminate Hids.
Qed.

(** C7, amended: the call with the ids p1 and p2 and the limit 5 sends one
    request, a GET through fetch, whose query string is the serialization of
    the parameters patient_ids, the ids joined by a comma, limit, 5, and
    include_recent, true, in this order; in that text the comma reads %2C. *)
Theorem getPatientContext_query_string :
  (forall network,
      requests network
        (chatApi.getPatientContext (Some ["p1"; "p2"]) (Some 5%float))
      = [ {| transport := Fetch;
             method := GET;
             url := "/api/patients/context/chat?"
                    ++ Url.toString [ ("patient_ids", "p1,p2");
                                      ("limit", "5");
                                      ("include_recent", "true") ];
             headers := [];
             body := NoBody |} ])
  /\ "/api/patients/context/chat?"
     ++ Url.toString [ ("patient_ids", "p1,p2");
                       ("limit", "5");
                       ("include_recent", "true") ]
     = "/api/patients/context/chat?patient_ids=p1%2Cp2&limit=5&include_recent=true".
Proof.
  split; [|reflexivity].
  intro network. simpl. rewrite Number_toString_5.
  simpl. f_equal. settle; reflexivity.
Qed.

(** C10: with an empty id list the call is the one with the list omitted,
    for every limit, any number given or the limit omitted: the same async
    function body, hence the same request and the same treatment of the
    response.  That request is a GET whose query string serializes the two
    parameters limit and include_recent and nothing else: it reads limit, the
    serialized text of the limit, and include_recent=true, and patient_ids
    does not occur in it. *)
Theorem getPatientContext_empty_ids_as_omitted (limit : option Number) :
  let n := match limit with Some n => n | None => 10%float end in
  let target :=
    "/api/patients/context/chat?limit=" ++ Url.urlencode (Number_toString n)
    ++ "&include_recent=true" in
  chatApi.getPatientContext (Some []) limit = chatApi.getPatientContext None limit
  /\ (forall network,
      requests network (chatApi.getPatientContext (Some []) limit)
      = [ {| transport := Fetch; method := GET; url := target;
             headers := []; body := NoBody |} ])
  /\ (forall network,
      requests network (chatApi.getPatientContext None limit)
      = [ {| transport := Fetch; method := GET; url := target;
             headers := []; body := NoBody |} ])
  /\ target
     = "/api/patients/context/chat?"
       ++ Url.toString [("limit", Number_toString n); ("include_recent", "true")]
  /\ Url.contains "patient_ids" target = false.
Proof.
  intros n target.
  assert (T : target
              = "/api/patients/context/chat?"
                ++ Url.toString
                     [("limit", Number_toString n); ("include_recent", "true")]).
  { subst target. unfold Url.toString. cbn [map String.concat].
    change (Url.urlencode "limit") with "limit".
    change (Url.urlencode "include_recent") with "include_recent".
    change (Url.urlencode "true") with "true".
    generalize (Url.urlencode (Number_toString n)). intro e. reflexivity. }
  split; [reflexivity|].
  split; [|split; [|split; [exact T|]]].
  - intro network. rewrite T. simpl. f_equal. settle; reflexivity.
  - intro network. rewrite T. simpl. f_equal. settle; reflexivity.
  - subst target. pose proof (serialized_number_without_p n) as E.
    revert E. generalize (Url.urlencode (Number_toString n)). intros e E.
    change (Url.contains "patient_ids"
              ("/api/patients/context/chat?limit="
               ++ (e ++ "&include_recent=true")) = false).
    cbn. rewrite contains_skip; [reflexivity|exact E].
Qed.

(** With the limit omitted as well, the URL in full. *)
Example getPatientContext_no_arguments :
  first_request (chatApi.getPatientContext None None)
  = Some {| transport := Fetch;
            method := GET;
            url := "/api/patients/context/chat?limit=10&include_recent=true";
            headers := [];
            body := NoBody |}.
Proof. vm_compute. reflexivity. Qed.

(** A limit that is no small integer: its text is what toString gives, the
    plus sign of an exponent serialized as %2B. *)
Example getPatientContext_other_limits :
  (forall r, first_request (chatApi.getPatientContext None (Some 1e21%float)) = Some r ->
             url r = "/api/patients/context/chat?limit=1e%2B21&include_recent=true")
  /\ (forall r, first_request (chatApi.getPatientContext None (Some 2.5%float)) = Some r ->
                url r = "/api/patients/context/chat?limit=2.5&include_recent=true")
  /\ (forall r, first_request (chatApi.getPatientContext None (Some (-1)%float)) = Some r ->
                url r = "/api/patients/context/chat?limit=-1&include_recent=true").
Proof.
  repeat split; intros r H; vm_compute in H; injection H as <-; reflexivity.
Qed.

(** * Further properties of the client *)

(** ** One exchange per call *)

(** X1: every operation sends exactly one request, fixed before any answer is
    known: the same single request whatever the network replies, failure
    included.  Nothing is retried. *)
Theorem every_call_sends_one_request (env : Env) (c : Call) :
  exists r, first_request (perform env c) = Some r
            /\ forall network, requests network (perform env c) = [r].
Proof.
  destruct c; simpl; (eexists; split; [reflexivity|]);
    intro network; simpl; f_equal; settle; reflexivity.
Qed.

(** X2: every operation sends a request, and when no response to it arrives
    the operation rejects with the error of its transport, the TypeError of
    fetch or the axios error without a status, and never with its own fixed
    message. *)
Theorem transport_failure_propagates (env : Env) (c : Call) :
  exists r, first_request (perform env c) = Some r
    /\ forall network, network r = NetworkFailure ->
         run network (perform env c) = Rejected (transport_error c).
Proof.
  destruct c; once_answered ltac:(reflexivity).
Qed.

Lemma transport_failure_propagates_witness :
  run unreachable (patientsApi.getPatient "p1")
  = Rejected (TypeError "Failed to fetch")
  /\ run unreachable (chatApi.sendMessage {| REACT_APP_API_URL := None |} JNull)
     = Rejected (AxiosError None).
Proof.
  destruct (transport_failure_propagates {| REACT_APP_API_URL := None |}
              (GetPatient "p1")) as [r1 [_ H1]].
  destruct (transport_failure_propagates {| REACT_APP_API_URL := None |}
              (SendMessage JNull)) as [r2 [_ H2]].
  split; [apply H1; reflexivity|apply H2; reflexivity].
Defined.

(** X3: the five operations written against the axios instance do not
    translate a rejected status: each sends a request, and on a response to
    it whose status is outside 200 to 299 it rejects with the axios error
    carrying that status. *)
Theorem api_operations_keep_the_axios_error (env : Env) (c : Call)
    (resp : Response)
    (Hc : through_api c = true)
    (Hs : validateStatus (status resp) = false) :
  exists r, first_request (perform env c) = Some r
    /\ forall network, network r = Reply resp ->
         run network (perform env c) = Rejected (AxiosError (Some (status resp))).
Proof.
  destruct c; try discriminate Hc;
    once_answered ltac:(rewrite Hs; reflexivity).
Qed.

Lemma api_operations_keep_the_axios_error_witness :
  run (replying server_error)
      (documentsApi.uploadDocuments {| REACT_APP_API_URL := None |} [sample_file])
  = Rejected (AxiosError (Some 500%Z))
  /\ run (replying server_error)
         (documentsApi.getSupportedTypes {| REACT_APP_API_URL := None |})
     = Rejected (AxiosError (Some 500%Z)).
Proof.
  destruct (api_operations_keep_the_axios_error {| REACT_APP_API_URL := None |}
              (UploadDocuments [sample_file]) server_error eq_refl eq_refl)
    as [r1 [_ H1]].
  destruct (api_operations_keep_the_axios_error {| REACT_APP_API_URL := None |}
              GetSupportedTypes server_error eq_refl eq_refl)
    as [r2 [_ H2]].
  split; [apply H1; reflexivity|apply H2; reflexivity].
Defined.

(** X4: no operation resolves without a response whose status is in the
    range 200 to 299. *)
Theorem resolves_only_on_success (env : Env) (c : Call)
    (network : Request -> Exchange) (v : JsValue)
    (H : run network (perform env c) = Fulfilled v) :
  exists r resp,
    first_request (perform env c) = Some r
    /\ network r = Reply resp
    /\ (200 <= status resp <= 299)%Z.
Proof.
  destruct c; simpl in H;
    match type of H with
    | context [network ?q] => destruct (network q) as [resp|] eqn:Hnet
    end; simpl in H; try discriminate H;
    (eexists; exists resp; split; [reflexivity|split; [exact Hnet|]]);
    first
      [ destruct (validateStatus (status resp)) eqn:Hs;
        [ unfold validateStatus in Hs; lia | discriminate H ]
      | destruct (ok resp) eqn:Hok;
        [ unfold ok in Hok; lia | discriminate H ] ].
Qed.

Lemma resolves_only_on_success_witness :
  exists r resp,
    first_request (perform {| REACT_APP_API_URL := None |} (DeletePatient "p1"))
    = Some r
    /\ replying {| status := 204; payload := TextPayload "" |} r = Reply resp
    /\ (200 <= status resp <= 299)%Z.
Proof.
  exact (resolves_only_on_success {| REACT_APP_API_URL := None |}
           (DeletePatient "p1")
           (replying {| status := 204; payload := TextPayload "" |})
           JUndefined eq_refl).
Defined.

(** ** What the fetch-based operations make of a response *)

(** X5: each of the three fetch-based chat operations sends a request, and
    on a response to it that is not a 2xx one it rejects with its own fixed
    message, whatever the status and the body are. *)
Theorem chat_operations_reject_with_fixed_message
    (resp : Response) (Hok : ok resp = false) :
  (forall sessionId query files,
      exists r,
        first_request (chatApi.sendMessageWithPatientContext sessionId query files)
        = Some r
        /\ forall network, network r = Reply resp ->
             run network (chatApi.sendMessageWithPatientContext sessionId query files)
             = Rejected (Error "Failed to get chat response"))
  /\ (forall patientIds limit,
      exists r, first_request (chatApi.getPatientContext patientIds limit) = Some r
        /\ forall network, network r = Reply resp ->
             run network (chatApi.getPatientContext patientIds limit)
             = Rejected (Error "Failed to get patient context"))
  /\ (exists r, first_request chatApi.startChatSession = Some r
        /\ forall network, network r = Reply resp ->
             run network chatApi.startChatSession
             = Rejected (Error "Failed to start chat session")).
Proof.
  split; [|split]; intros *; once_answered ltac:(rewrite Hok; reflexivity).
Qed.

Lemma chat_operations_reject_with_fixed_message_witness :
  run (replying server_error)
      (chatApi.sendMessageWithPatientContext "s1" "hello" (Some [sample_file]))
  = Rejected (Error "Failed to get chat response")
  /\ run (replying server_error) (chatApi.getPatientContext (Some ["p1"]) None)
     = Rejected (Error "Failed to get patient context")
  /\ run (replying server_error) chatApi.startChatSession
     = Rejected (Error "Failed to start chat session").
Proof.
  destruct (chat_operations_reject_with_fixed_message server_error eq_refl)
    as [Hsend [Hcontext [r3 [_ H3]]]].
  destruct (Hsend "s1" "hello" (Some [sample_file])) as [r1 [_ H1]].
  destruct (Hcontext (Some ["p1"]) None) as [r2 [_ H2]].
  split; [apply H1; reflexivity|].
  split; [apply H2; reflexivity|apply H3; reflexivity].
Defined.

(** X6: each of the three fetch-based chat operations sends a request, and
    on a 2xx response to it with a JSON body it resolves with the parsed body
    as it is, whatever value it is: nothing is unwrapped or checked. *)
Theorem chat_operations_return_the_body
    (resp : Response) (v : JsValue)
    (Hok : ok resp = true) (Hbody : payload resp = JsonPayload v) :
  (forall sessionId query files,
      exists r,
        first_request (chatApi.sendMessageWithPatientContext sessionId query files)
        = Some r
        /\ forall network, network r = Reply resp ->
             run network (chatApi.sendMessageWithPatientContext sessionId query files)
             = Fulfilled v)
  /\ (forall patientIds limit,
      exists r, first_request (chatApi.getPatientContext patientIds limit) = Some r
        /\ forall network, network r = Reply resp ->
             run network (chatApi.getPatientContext patientIds limit) = Fulfilled v)
  /\ (exists r, first_request chatApi.startChatSession = Some r
        /\ forall network, network r = Reply resp ->
             run network chatApi.startChatSession = Fulfilled v).
Proof.
  split; [|split]; intros *;
    once_answered ltac:(rewrite Hok; simpl; unfold json; rewrite Hbody; reflexivity).
Qed.

Lemma chat_operations_return_the_body_witness :
  run (answering 200 sample_envelope)
      (chatApi.sendMessageWithPatientContext "s1" "hello" None)
  = Fulfilled sample_envelope
  /\ run (answering 200 JNull) (chatApi.getPatientContext (Some ["p1"]) None)
     = Fulfilled JNull
  /\ run (answering 200 (JObj [("session_id", JStr "s1")])) chatApi.startChatSession
     = Fulfilled (JObj [("session_id", JStr "s1")]).
Proof.
  destruct (chat_operations_return_the_body
              {| status := 200; payload := JsonPayload sample_envelope |}
              sample_envelope eq_refl eq_refl) as [Hsend _].
  destruct (chat_operations_return_the_body
              {| status := 200; payload := JsonPayload JNull |}
              JNull eq_refl eq_refl) as [_ [Hcontext _]].
  destruct (chat_operations_return_the_body
              {| status := 200;
                 payload := JsonPayload (JObj [("session_id", JStr "s1")]) |}
              (JObj [("session_id", JStr "s1")]) eq_refl eq_refl)
    as [_ [_ [r3 [_ H3]]]].
  destruct (Hsend "s1" "hello" None) as [r1 [_ H1]].
  destruct (Hcontext (Some ["p1"]) None) as [r2 [_ H2]].
  split; [apply H1; reflexivity|].
  split; [apply H2; reflexivity|apply H3; reflexivity].
Defined.

(** X7: each of the seven fetch-based operations that read the body sends a
    request, and on a 2xx response to it whose body is not JSON it rejects
    with the SyntaxError of response.json(), not with its fixed message. *)
Theorem unparsable_body_rejects (env : Env) (c : Call)
    (resp : Response) (text : string)
    (Hc : reads_json c = true)
    (Hok : ok resp = true)
    (Hbody : payload resp = TextPayload text) :
  exists r, first_request (perform env c) = Some r
    /\ forall network, network r = Reply resp ->
         run network (perform env c) = Rejected SyntaxError.
Proof.
  destruct c; try discriminate Hc;
    once_answered ltac:(rewrite Hok; simpl; unfold json; rewrite Hbody; reflexivity).
Qed.

Lemma unparsable_body_rejects_witness :
  run (replying {| status := 200; payload := TextPayload "<html>" |})
      patientsApi.getPatients
  = Rejected SyntaxError
  /\ run (replying {| status := 200; payload := TextPayload "<html>" |})
         (patientsApi.createPatient sample_patient)
     = Rejected SyntaxError.
Proof.
  destruct (unparsable_body_rejects {| REACT_APP_API_URL := None |} GetPatients
              {| status := 200; payload := TextPayload "<html>" |} "<html>"
              eq_refl eq_refl eq_refl) as [r1 [_ H1]].
  destruct (unparsable_body_rejects {| REACT_APP_API_URL := None |}
              (CreatePatient sample_patient)
              {| status := 200; payload := TextPayload "<html>" |} "<html>"
              eq_refl eq_refl eq_refl) as [r2 [_ H2]].
  split; [apply H1; reflexivity|apply H2; reflexivity].
Defined.

(** X8: deletePatient never reads the response body: on every 2xx response,
    JSON or not, it resolves with undefined. *)
Theorem deletePatient_ignores_the_body (id : string)
    (network : Request -> Exchange) (resp : Response)
    (Hsent : answered network (patientsApi.deletePatient id) resp)
    (Hok : ok resp = true) :
  run network (patientsApi.deletePatient id) = Fulfilled JUndefined.
Proof.
  destruct Hsent as [r [Hr Hnet]]. simpl in Hr. injection Hr as <-.
  simpl. rewrite Hnet. simpl. rewrite Hok. reflexivity.
Qed.

Lemma deletePatient_ignores_the_body_witness :
  run (replying {| status := 204; payload := TextPayload "" |})
      (patientsApi.deletePatient "p1")
  = Fulfilled JUndefined.
Proof.
  apply (deletePatient_ignores_the_body "p1"
           (replying {| status := 204; payload := TextPayload "" |})
           {| status := 204; payload := TextPayload "" |}).
  - eexists; split; reflexivity.
  - reflexivity.
Defined.

(** X9: getPatient and updatePatient each send a request, and on a 2xx JSON
    response to it each returns the patient member of an envelope object; an
    envelope object without that member makes it resolve with undefined, not
    reject; the JSON body null makes it reject with a TypeError. *)
Theorem patient_envelope_unwrapping (id : string) (patientData : PatientUpdate)
    (resp : Response) (envelope : JsValue)
    (Hok : ok resp = true)
    (Hbody : payload resp = JsonPayload envelope) :
  let unwrapped (outcome : Settled JsValue) : Prop :=
    match envelope with
    | JObj props =>
        outcome = Fulfilled (match lookup "patient" props with
                             | Some patient => patient
                             | None => JUndefined
                             end)
    | JNull | JUndefined => exists message, outcome = Rejected (TypeError message)
    | _ => outcome = Fulfilled JUndefined
    end in
  (exists r, first_request (patientsApi.getPatient id) = Some r
     /\ forall network, network r = Reply resp ->
          unwrapped (run network (patientsApi.getPatient id)))
  /\ (exists r, first_request (patientsApi.updatePatient id patientData) = Some r
     /\ forall network, network r = Reply resp ->
          unwrapped (run network (patientsApi.updatePatient id patientData))).
Proof.
  intro unwrapped. subst unwrapped.
  split;
    once_answered ltac:(rewrite Hok; simpl; unfold json; rewrite Hbody; simpl;
                        destruct envelope; simpl; try reflexivity;
                        try (eexists; reflexivity);
                        destruct (lookup "patient" props); reflexivity).
Qed.

Lemma patient_envelope_unwrapping_witness :
  run (answering 200 (JObj [])) (patientsApi.getPatient "p1") = Fulfilled JUndefined
  /\ run (answering 200 sample_envelope) (patientsApi.updatePatient "p1" sample_update)
     = Fulfilled (JObj [("id", JStr "p1"); ("name", JStr "Ada")])
  /\ exists message,
       run (answering 200 JNull) (patientsApi.getPatient "p1")
       = Rejected (TypeError message).
Proof.
  destruct (patient_envelope_unwrapping "p1" sample_update
              {| status := 200; payload := JsonPayload (JObj []) |} (JObj [])
              eq_refl eq_refl) as [[r1 [_ H1]] _].
  destruct (patient_envelope_unwrapping "p1" sample_update
              {| status := 200; payload := JsonPayload sample_envelope |}
              sample_envelope eq_refl eq_refl) as [_ [r2 [_ H2]]].
  destruct (patient_envelope_unwrapping "p1" sample_update
              {| status := 200; payload := JsonPayload JNull |} JNull
              eq_refl eq_refl) as [[r3 [_ H3]] _].
  split; [exact (H1 (answering 200 (JObj [])) eq_refl)|].
  split; [exact (H2 (answering 200 sample_envelope) eq_refl)|].
  exact (H3 (answering 200 JNull) eq_refl).
Defined.

(** X10: getPatients never resolves with a falsy value.  It sends a request,
    and on a 2xx response to it whose envelope has a patients member it
    resolves with that member when it is truthy and with the empty array when
    it is falsy: null, false, zero or the empty string are replaced like an
    absent member. *)
Theorem getPatients_result_is_truthy :
  (forall network v,
      run network patientsApi.getPatients = Fulfilled v -> truthy v = true)
  /\ exists r,
       first_request patientsApi.getPatients = Some r
       /\ forall network resp props patients,
            network r = Reply resp ->
            ok resp = true ->
            payload resp = JsonPayload (JObj props) ->
            lookup "patients" props = Some patients ->
            run network patientsApi.getPatients
            = Fulfilled (if truthy patients then patients else JArr []).
Proof.
  split.
  - intros network v H. simpl in H.
    match type of H with
    | context [network ?q] => destruct (network q) as [resp|] eqn:Hnet
    end; simpl in H; [|discriminate H].
    destruct (ok resp); simpl in H; [|discriminate H].
    unfold json in H.
    destruct (payload resp) as [body|]; simpl in H; [|discriminate H].
    destruct (get body "patients") as [e|patients]; simpl in H; [discriminate H|].
    injection H as <-. unfold or_else.
    destruct (truthy patients) eqn:T; [exact T|reflexivity].
  - eexists; split; [reflexivity|].
    intros network resp props patients Hnet Hok Hbody Hmember.
    simpl in Hnet. simpl. rewrite Hnet. simpl. rewrite Hok. simpl.
    unfold json. rewrite Hbody. simpl. rewrite Hmember. reflexivity.
Qed.

Lemma getPatients_result_is_truthy_witness :
  truthy (JArr []) = true
  /\ run (answering 200 (JObj [("patients", JNull)])) patientsApi.getPatients
     = Fulfilled (JArr [])
  /\ run (answering 200 (JObj [("patients", JBool false)])) patientsApi.getPatients
     = Fulfilled (JArr [])
  /\ run (answering 200 (JObj [("patients", JNum 0)])) patientsApi.getPatients
     = Fulfilled (JArr [])
  /\ run (answering 200 (JObj [("patients", JStr "")])) patientsApi.getPatients
     = Fulfilled (JArr [])
  /\ run (answering 200 (JObj [("patients", JArr [JStr "p1"])])) patientsApi.getPatients
     = Fulfilled (JArr [JStr "p1"]).
Proof.
  destruct getPatients_result_is_truthy as [Htruthy [r [_ H]]].
  split.
  { exact (Htruthy (answering 200 (JObj [("patients", JNull)])) (JArr []) eq_refl). }
  repeat split;
    match goal with
    | |- run (answering 200 (JObj [("patients", ?member)])) _ = _ =>
        exact (H (answering 200 (JObj [("patients", member)]))
                 {| status := 200;
                    payload := JsonPayload (JObj [("patients", member)]) |}
                 [("patients", member)] member eq_refl eq_refl eq_refl eq_refl)
    end.
Defined.

(** ** The JSON bodies of createPatient and updatePatient *)

Lemma truthy_not_null (v : JsValue) :
  truthy v = true -> stringify v <> Some JsonNull.
Proof.
  destruct v; simpl; intros H E; discriminate.
Qed.

(** X11: updatePatient sends each of the four fields as given: a field that
    is undefined is left out of the body, null is sent as null and the empty
    string as the empty string, with no default put in; the body has no
    confidence_score and no raw_text member. *)
Theorem updatePatient_sends_fields_as_given (id : string)
    (patientData : PatientUpdate) :
  exists doc,
    json_sent (patientsApi.updatePatient id patientData) = Some doc
    /\ member "name" doc = stringify (name patientData)
    /\ member "date_of_birth" doc = stringify (date_of_birth patientData)
    /\ member "diagnosis" doc = stringify (diagnosis patientData)
    /\ member "prescription" doc = stringify (prescription patientData)
    /\ member "confidence_score" doc = None
    /\ member "raw_text" doc = None.
Proof.
  unfold json_sent. simpl.
  destruct (stringify (name patientData)),
           (stringify (date_of_birth patientData)),
           (stringify (diagnosis patientData)),
           (stringify (prescription patientData));
    simpl; eexists; (split; [reflexivity|]); simpl; repeat split.
Qed.

(** X12: createPatient sends name and date of birth as given, and a
    diagnosis or prescription is null in the body exactly when the input
    value is falsy: a truthy value is sent as itself. *)
Theorem createPatient_null_iff_falsy (patientData : PatientCreate) :
  exists doc,
    json_sent (patientsApi.createPatient patientData) = Some doc
    /\ member "name" doc = stringify (name patientData)
    /\ member "date_of_birth" doc = stringify (date_of_birth patientData)
    /\ (member "diagnosis" doc = Some JsonNull
        <-> truthy (diagnosis patientData) = false)
    /\ (member "prescription" doc = Some JsonNull
        <-> truthy (prescription patientData) = false)
    /\ (truthy (diagnosis patientData) = true ->
        member "diagnosis" doc = stringify (diagnosis patientData))
    /\ (truthy (prescription patientData) = true ->
        member "prescription" doc = stringify (prescription patientData)).
Proof.
  unfold json_sent. simpl.
  destruct (truthy (diagnosis patientData)) eqn:Td,
           (truthy (prescription patientData)) eqn:Tp;
    try rewrite (or_falsy _ JNull Td); try rewrite (or_falsy _ JNull Tp);
    try rewrite (or_truthy _ JNull Td); try rewrite (or_truthy _ JNull Tp);
    try pose proof (truthy_not_null _ Td) as Nd;
    try pose proof (truthy_not_null _ Tp) as Np;
    destruct (stringify (name patientData)),
             (stringify (date_of_birth patientData));
    try (destruct (stringify (diagnosis patientData)) eqn:Sd);
    try (destruct (stringify (prescription patientData)) eqn:Sp);
    try (apply stringify_none in Sd; rewrite Sd in Td; discriminate Td);
    try (apply stringify_none in Sp; rewrite Sp in Tp; discriminate Tp);
    simpl; eexists; (split; [reflexivity|]); simpl;
    repeat split; intros; try reflexivity; try discriminate; try contradiction.
Qed.

Lemma createPatient_null_iff_falsy_witness :
  exists doc,
    json_sent (patientsApi.createPatient
                 {| name := JStr "Ada"; date_of_birth := JStr "1990-01-01";
                    diagnosis := JStr "flu"; prescription := JStr "" |}) = Some doc
    /\ member "diagnosis" doc = Some (JsonStr "flu")
    /\ member "prescription" doc = Some JsonNull.
Proof.
  destruct (createPatient_null_iff_falsy
              {| name := JStr "Ada"; date_of_birth := JStr "1990-01-01";
                 diagnosis := JStr "flu"; prescription := JStr "" |})
    as [doc [Hs [_ [_ [_ [Hp [Hd _]]]]]]].
  exists doc. split; [exact Hs|]. split.
  - apply Hd. reflexivity.
  - apply Hp. reflexivity.
Defined.

(** ** The forms of uploadDocuments and sendMessageWithPatientContext *)

(** X13: uploadDocuments sends, by POST through the axios instance, a form of
    one entry per file, each named files, in the order of the list and with
    nothing else; for the empty list the form is empty and is sent all the
    same. *)
Theorem uploadDocuments_one_entry_per_file (env : Env) (files : list File) :
  form_sent (documentsApi.uploadDocuments env files)
  = Some (map (fun f => ("files", FormFile f)) files)
  /\ (forall form, form_sent (documentsApi.uploadDocuments env files) = Some form ->
      FormData_getAll "files" form = map FormFile files
      /\ List.length form = List.length files)
  /\ (forall network,
      requests network (documentsApi.uploadDocuments env files)
      = [ {| transport := Axios (api env);
             method := POST;
             url := "/api/documents/upload-multiple";
             headers := [("Content-Type", "multipart/form-data")];
             body := Multipart (map (fun f => ("files", FormFile f)) files) |} ]).
Proof.
  assert (F : fold_left (fun form f => FormData_append form "files" (FormFile f))
                files new_FormData
              = map (fun f => ("files", FormFile f)) files)
    by (rewrite append_each; reflexivity).
  split; [|split].
  - unfold form_sent. simpl. now rewrite F.
  - unfold form_sent. simpl. rewrite F. intros form E. injection E as <-.
    split.
    + unfold FormData_getAll.
      induction files as [|f files IH]; simpl; [reflexivity|].
      f_equal. apply IH. apply append_each.
    + apply length_map.
  - intro network. simpl. rewrite F. f_equal. settle; reflexivity.
Qed.

Lemma uploadDocuments_one_entry_per_file_witness :
  FormData_getAll "files" [("files", FormFile sample_file)] = [FormFile sample_file]
  /\ List.length [("files", FormFile sample_file)] = 1%nat.
Proof.
  exact (proj1 (proj2 (uploadDocuments_one_entry_per_file
                         {| REACT_APP_API_URL := None |} [sample_file]))
           _ eq_refl).
Defined.

(** X14: the form of sendMessageWithPatientContext is the four text fields in
    the order session_id, query, include_all_patients, max_patients, followed
    by one files entry per attached file in the order given; leaving the files
    out is the same call as passing the empty list. *)
Theorem sendMessageWithPatientContext_files_follow (sessionId query : string) :
  chatApi.sendMessageWithPatientContext sessionId query None
  = chatApi.sendMessageWithPatientContext sessionId query (Some [])
  /\ forall files,
      form_sent (chatApi.sendMessageWithPatientContext sessionId query (Some files))
      = Some ([ ("session_id", FormText sessionId);
                ("query", FormText query);
                ("include_all_patients", FormText "true");
                ("max_patients", FormText "10") ]
              ++ map (fun f => ("files", FormFile f)) files)%list.
Proof.
  split; [reflexivity|].
  intro files. apply (patient_context_form sessionId query (Some files)).
Qed.

(** ** The URLs of getPatientContext and of the patient resource *)

(** What the serializer writes for one byte is made of safe bytes. *)
Lemma urlencode_byte_safe (c : ascii) :
  Url.all_bytes query_safe (Url.urlencode (String c "")) = true.
Proof.
  destruct c as [[] [] [] [] [] [] [] []]; vm_compute; reflexivity.
Qed.

Lemma urlencode_safe (s : string) :
  Url.all_bytes query_safe (Url.urlencode s) = true.
Proof.
  induction s as [|c s IH]; [reflexivity|].
  pose proof (urlencode_byte_safe c) as Hc.
  cbn [Url.urlencode] in Hc |- *.
  rewrite all_bytes_app in Hc |- *.
  apply andb_true_iff in Hc as [Hc _].
  now rewrite Hc, IH.
Qed.

Lemma query_safe_no_separator (c : ascii) :
  query_safe c = true -> no_separator c = true.
Proof.
  destruct c as [[] [] [] [] [] [] [] []]; vm_compute; intro H;
    first [reflexivity | discriminate H].
Qed.

Lemma urlencode_no_separator (s : string) :
  Url.all_bytes no_separator (Url.urlencode s) = true.
Proof.
  apply (all_bytes_weaken query_safe); [exact query_safe_no_separator|].
  apply urlencode_safe.
Qed.

(** X15: with a non-empty id list, for every ids and every limit, any number
    given or the limit omitted, getPatientContext sends one GET whose query
    string is patient_ids, the serialized comma-join of the ids, then limit,
    the serialized text of the limit, then include_recent=true; neither
    serialized value contains any of the bytes & = , # ? / or space, so an id
    cannot add or alter a parameter. *)
Theorem getPatientContext_ids_are_encoded (ids : list string)
    (limit : option Number) (Hids : ids <> []) :
  let n := match limit with Some n => n | None => 10%float end in
  let target :=
    "/api/patients/context/chat?patient_ids=" ++ Url.urlencode (join "," ids)
    ++ "&limit=" ++ Url.urlencode (Number_toString n) ++ "&include_recent=true" in
  (forall network,
      requests network (chatApi.getPatientContext (Some ids) limit)
      = [ {| transport := Fetch; method := GET; url := target;
             headers := []; body := NoBody |} ])
  /\ Url.all_bytes no_separator (Url.urlencode (join "," ids)) = true
  /\ Url.all_bytes no_separator (Url.urlencode (Number_toString n)) = true.
Proof.
  intros n target.
  assert (T : target
              = "/api/patients/context/chat?"
                ++ Url.toString [ ("patient_ids", join "," ids);
                                  ("limit", Number_toString n);
                                  ("include_recent", "true") ]).
  { subst target. unfold Url.toString. cbn [map String.concat].
    change (Url.urlencode "patient_ids") with "patient_ids".
    change (Url.urlencode "limit") with "limit".
    change (Url.urlencode "include_recent") with "include_recent".
    change (Url.urlencode "true") with "true".
    generalize (Url.urlencode (join "," ids)) (Url.urlencode (Number_toString n)).
    intros e d. cbn. reflexivity. }
  split; [|split; apply urlencode_no_separator].
  intro network. rewrite T. destruct ids as [|i rest]; [contradiction|].
  simpl. f_equal. settle; reflexivity.
Qed.

Lemma getPatientContext_ids_are_encoded_witness :
  (forall network,
      requests network
        (chatApi.getPatientContext (Some ["p1&limit=1000"; "p2"]) (Some 1e21%float))
      = [ {| transport := Fetch;
             method := GET;
             url := "/api/patients/context/chat?patient_ids="
                    ++ Url.urlencode (join "," ["p1&limit=1000"; "p2"])
                    ++ "&limit=" ++ Url.urlencode (Number_toString 1e21%float)
                    ++ "&include_recent=true";
             headers := [];
             body := NoBody |} ])
  /\ Url.all_bytes no_separator (Url.urlencode (join "," ["p1&limit=1000"; "p2"]))
     = true
  /\ Url.all_bytes no_separator (Url.urlencode (Number_toString 1e21%float)) = true.
Proof.
  apply (getPatientContext_ids_are_encoded ["p1&limit=1000"; "p2"] (Some 1e21%float)).
  discriminate.
Defined.

(** The URL of that call in full. *)
Example getPatientContext_injection_attempt :
  forall r,
    first_request
      (chatApi.getPatientContext (Some ["p1&limit=1000"; "p2"]) (Some 1e21%float))
    = Some r ->
    url r = "/api/patients/context/chat?patient_ids=p1%26limit%3D1000%2Cp2&limit=1e%2B21&include_recent=true".
Proof.
  intros r H. vm_compute in H. injection H as <-. reflexivity.
Qed.

(** X16: the id list reaches the request only through its comma-join: two
    non-empty lists with the same join give the same call, so an id that
    contains a comma cannot be told from two ids. *)
Theorem getPatientContext_ids_only_through_join (ids1 ids2 : list string)
    (limit : option Number)
    (H1 : ids1 <> []) (H2 : ids2 <> [])
    (Hjoin : join "," ids1 = join "," ids2) :
  chatApi.getPatientContext (Some ids1) limit
  = chatApi.getPatientContext (Some ids2) limit.
Proof.
  destruct ids1 as [|a1 r1]; [contradiction|].
  destruct ids2 as [|a2 r2]; [contradiction|].
  unfold chatApi.getPatientContext.
  change (0 <? List.length (a1 :: r1))%nat with true.
  change (0 <? List.length (a2 :: r2))%nat with true.
  cbv iota. rewrite Hjoin. reflexivity.
Qed.

Lemma getPatientContext_ids_only_through_join_witness :
  chatApi.getPatientContext (Some ["a,b"]) (Some 5%float)
  = chatApi.getPatientContext (Some ["a"; "b"]) (Some 5%float).
Proof.
  apply getPatientContext_ids_only_through_join.
  - discriminate.
  - discriminate.
  - reflexivity.
Defined.

(** X17: for the same id, getPatient, updatePatient and deletePatient hand
    fetch the same URL string, /api/patients/ followed by the id exactly as it
    was given, with the methods GET, PUT and DELETE; with the empty id
    getPatient sends the very request of getPatients. *)
Theorem patient_resource_url (id : string) (patientData : PatientUpdate) :
  (exists r_get r_put r_delete,
      first_request (patientsApi.getPatient id) = Some r_get
      /\ first_request (patientsApi.updatePatient id patientData) = Some r_put
      /\ first_request (patientsApi.deletePatient id) = Some r_delete
      /\ url r_get = "/api/patients/" ++ id
      /\ url r_put = url r_get
      /\ url r_delete = url r_get
      /\ method r_get = GET /\ method r_put = PUT /\ method r_delete = DELETE)
  /\ (id = "" ->
      first_request (patientsApi.getPatient id)
      = first_request patientsApi.getPatients).
Proof.
  split.
  - do 3 eexists. repeat split.
  - intros ->. reflexivity.
Qed.

Lemma patient_resource_url_witness :
  first_request (patientsApi.getPatient "")
  = first_request patientsApi.getPatients.
Proof.
  exact (proj2 (patient_resource_url "" sample_update) eq_refl).
Defined.

(** ** The base address and the axios-based operations *)

(** X18: the base address is never empty: an empty setting counts as absent
    and gives the local development address, and any other setting is taken
    as it is. *)
Theorem API_BASE_URL_never_empty (env : Env) :
  API_BASE_URL env <> ""
  /\ (REACT_APP_API_URL env = Some "" -> API_BASE_URL env = "http://localhost:8000")
  /\ (API_BASE_URL env = "http://localhost:8000"
      \/ REACT_APP_API_URL env = Some (API_BASE_URL env)).
Proof.
  unfold API_BASE_URL. destruct (REACT_APP_API_URL env) as [s|].
  - destruct (s =? "") eqn:E.
    + split; [discriminate|split; [reflexivity|now left]].
    + apply String.eqb_neq in E. split; [exact E|split; [|now right]].
      intro H. injection H as H. contradiction.
  - split; [discriminate|split; [discriminate|now left]].
Qed.

Lemma API_BASE_URL_never_empty_witness :
  API_BASE_URL {| REACT_APP_API_URL := Some "" |} = "http://localhost:8000".
Proof.
  exact (proj1 (proj2 (API_BASE_URL_never_empty {| REACT_APP_API_URL := Some "" |}))
           eq_refl).
Defined.

(** X19: uploadDocuments, getSupportedTypes, sendMessage and
    refreshKnowledgeBase each send a request; on a response to it with a status
    from 200 to 299 the first three return the parsed JSON body as it is, and
    refreshKnowledgeBase resolves with undefined whatever the body is. *)
Theorem api_operations_return_data (env : Env) (resp : Response)
    (Hs : validateStatus (status resp) = true) :
  (forall files,
      exists r, first_request (documentsApi.uploadDocuments env files) = Some r
        /\ forall network result,
             network r = Reply resp ->
             payload resp = JsonPayload result ->
             run network (documentsApi.uploadDocuments env files) = Fulfilled result)
  /\ (exists r, first_request (documentsApi.getSupportedTypes env) = Some r
        /\ forall network result,
             network r = Reply resp ->
             payload resp = JsonPayload result ->
             run network (documentsApi.getSupportedTypes env) = Fulfilled result)
  /\ (forall message,
      exists r, first_request (chatApi.sendMessage env message) = Some r
        /\ forall network result,
             network r = Reply resp ->
             payload resp = JsonPayload result ->
             run network (chatApi.sendMessage env message) = Fulfilled result)
  /\ (exists r, first_request (chatApi.refreshKnowledgeBase env) = Some r
        /\ forall network,
             network r = Reply resp ->
             run network (chatApi.refreshKnowledgeBase env) = Fulfilled JUndefined).
Proof.
  split; [|split; [|split]]; intros *;
    (eexists; split; [reflexivity|]);
    first [intros network result Hnet Hp | intros network Hnet];
    simpl in Hnet; simpl; rewrite Hnet; simpl; rewrite Hs; simpl;
    try rewrite Hp; reflexivity.
Qed.

Lemma api_operations_return_data_witness :
  run (answering 200 sample_envelope)
      (documentsApi.uploadDocuments {| REACT_APP_API_URL := None |} [sample_file])
  = Fulfilled sample_envelope
  /\ run (answering 200 sample_envelope)
         (documentsApi.getSupportedTypes {| REACT_APP_API_URL := None |})
     = Fulfilled sample_envelope
  /\ run (answering 200 sample_envelope)
         (chatApi.sendMessage {| REACT_APP_API_URL := None |}
            (JObj [("message", JStr "hello")]))
     = Fulfilled sample_envelope
  /\ run (answering 200 sample_envelope)
         (chatApi.refreshKnowledgeBase {| REACT_APP_API_URL := None |})
     = Fulfilled JUndefined.
Proof.
  destruct (api_operations_return_data {| REACT_APP_API_URL := None |}
              {| status := 200; payload := JsonPayload sample_envelope |} eq_refl)
    as [Hupload [[r2 [_ H2]] [Hsend [r4 [_ H4]]]]].
  destruct (Hupload [sample_file]) as [r1 [_ H1]].
  destruct (Hsend (JObj [("message", JStr "hello")])) as [r3 [_ H3]].
  split; [exact (H1 (answering 200 sample_envelope) sample_envelope eq_refl eq_refl)|].
  split; [exact (H2 (answering 200 sample_envelope) sample_envelope eq_refl eq_refl)|].
  split; [exact (H3 (answering 200 sample_envelope) sample_envelope eq_refl eq_refl)|].
  exact (H4 (answering 200 sample_envelope) eq_refl).
Defined.
